(** * The CSV extract / transform / load pipeline of [etl_pipeline.py]

    A shallow embedding of [ETLPipeline] and of the pandas operations it
    calls, followed by the properties of the pipeline.

    The frames of the program are pandas [DataFrame]s.  What the program
    observes of a frame is modelled here: its number of rows, its ordered
    labelled columns, the dtype of every column and the cells.  Of the
    dtypes only [object], the dtype of text columns, is told from the
    rest.  Frames are mutable Python objects: they live in a store and are
    handled through references, so that an assignment to a column changes
    the object it is made on and no other.

    What pandas, [datetime], the file system and sqlite3 decide (how a text
    reads as a number, how a frame is printed as CSV and read back, which
    paths can be opened, what time it is) is gathered in a record [Env].
    For the texts that need no quoting the CSV writer and reader of pandas
    are modelled as well, and the round trip through a file is stated for
    the environments that have this writer and this reader.
    Log messages are not modelled. *)

From Stdlib Require Import Ascii String ZArith QArith.
From stdpp Require Import base option list strings gmap pretty.

Local Open Scope string_scope.
Local Open Scope list_scope.
Local Open Scope Z_scope.

(** ** Python exceptions *)

(** An exception, as far as the program looks at it: its class and the
    text that [str(e)] gives. *)
Record exception := Exception { exc_class : string; exc_msg : string }.

Definition KeyError (label : string) : exception :=
  Exception "KeyError" ("'" +:+ label +:+ "'").
Definition TypeError : exception :=
  Exception "TypeError" "arg must be a list, tuple, 1-d array, or Series".
Definition ValueError_parse (s : string) : exception :=
  Exception "ValueError" ("Unable to parse string " +:+ s).
Definition ValueError_set (label : string) : exception :=
  Exception "ValueError"
    ("Cannot set a DataFrame with multiple columns to the single column "
       +:+ label).
Definition FileNotFoundError (path : string) : exception :=
  Exception "FileNotFoundError"
    ("[Errno 2] No such file or directory: '" +:+ path +:+ "'").

(** ** Frames *)

Section Frames.

(** The numeric scalars of pandas (int64 and float64 values other than
    NaN); the program never computes with them. *)
Context {number : Type}.

(** A cell: missing (NaN), a number, or text. *)
Inductive scalar :=
| Null
| Num (x : number)
| Str (s : string).

Inductive dtype := numeric | object.

Global Instance dtype_eq_dec : EqDecision dtype.
Proof. solve_decision. Defined.

Record Series := mkSeries { dtype_of : dtype; values : list scalar }.

(** [nrows] is the length of the index, [columns] the labelled columns in
    column order. *)
Record DataFrame := mkFrame { nrows : nat; columns : list (string * Series) }.

(** [len(df)] *)
Definition len (df : DataFrame) : Z := Z.of_nat (nrows df).

(** [df.columns] *)
Definition labels (df : DataFrame) : list string := (columns df).*1.

Definition isna (v : scalar) : bool :=
  match v with Null => true | _ => false end.

(** The cell of a column at a row position. *)
Definition cell (s : Series) (i : nat) : scalar := default Null (values s !! i).

(** The row view of a frame: one cell per column at a position. *)
Definition row_at (df : DataFrame) (i : nat) : list scalar :=
  map (fun c => cell c.2 i) (columns df).

Definition rows (df : DataFrame) : list (list scalar) :=
  map (row_at df) (seq 0 (nrows df)).

(** A row with a missing value. *)
Definition has_null (row : list scalar) : bool := existsb isna row.

(** A frame of pandas is rectangular. Labels are unique in every frame
    that [read_csv] builds (it renames repeated header fields). *)
Definition rectangular (df : DataFrame) : Prop :=
  Forall (fun c => length (values c.2) = nrows df) (columns df).

Definition unique_labels (df : DataFrame) : Prop := NoDup (labels df).

Global Instance unique_labels_dec df : Decision (unique_labels df).
Proof. unfold unique_labels. apply _. Defined.

(** *** [DataFrame.dropna()]

    pandas computes the mask of the rows without a missing value, and
    takes the positions where the mask holds into a new frame. *)
Definition row_complete (df : DataFrame) (i : nat) : bool :=
  forallb (fun v => negb (isna v)) (row_at df i).

Definition notna_positions (df : DataFrame) : list nat :=
  filter (fun i => row_complete df i = true) (seq 0 (nrows df)).

Definition take_positions (idx : list nat) (s : Series) : Series :=
  mkSeries (dtype_of s) (map (cell s) idx).

Definition dropna (df : DataFrame) : DataFrame :=
  let idx := notna_positions df in
  mkFrame (length idx) (map (fun c => (c.1, take_positions idx c.2)) (columns df)).

(** *** [df.select_dtypes(include=['object']).columns] *)
Definition is_object (c : string * Series) : bool :=
  bool_decide (dtype_of c.2 = object).

Definition object_columns (df : DataFrame) : list string :=
  (filter (fun c => is_object c = true) (columns df)).*1.

(** *** [df[label]]

    A label borne by one column selects that Series.  A label borne by
    several columns selects a sub-frame, which neither [pd.to_numeric]
    accepts nor a single column can store. *)
Definition getitem (df : DataFrame) (label : string) : exception + Series :=
  match filter (fun c => c.1 = label) (columns df) with
  | [] => inl (KeyError label)
  | [c] => inr c.2
  | _ => inl TypeError
  end.

(** *** [df[label] = series]

    An existing label is overwritten where it stands; a new label is
    appended after the last column. *)
Definition setitem (df : DataFrame) (label : string) (s : Series) : DataFrame :=
  if decide (label ∈ labels df)
  then mkFrame (nrows df)
         (map (fun c => if decide (c.1 = label) then (label, s) else c) (columns df))
  else mkFrame (nrows df) (columns df ++ [(label, s)]).

(** A text scalar broadcast over the index. *)
Definition broadcast (df : DataFrame) (text : string) : Series :=
  mkSeries object (replicate (nrows df) (Str text)).

(** *** [pd.to_numeric(series, errors='raise')] *)

(** The scalar parser of pandas: [None] when the text is not a number,
    [Some None] when it reads as NaN, [Some (Some x)] for the number [x]. *)
Variable parse_number : string -> option (option number).

(** One cell.  A missing value and a number stay; the empty text is taken
    for a missing value before the parser is asked; any other text is the
    parser's. *)
Definition to_numeric_scalar (v : scalar) : option scalar :=
  match v with
  | Null => Some Null
  | Num x => Some (Num x)
  | Str EmptyString => Some Null
  | Str s => from_option Num Null <$> parse_number s
  end.





Definition first_unparsed (vs : list scalar) : string :=
  match filter (fun v => to_numeric_scalar v = None) vs with
  | Str s :: _ => s
  | _ => ""
  end.

Definition to_numeric (s : Series) : exception + Series :=
  match mapM to_numeric_scalar (values s) with
  | Some vs => inr (mkSeries numeric vs)
  | None => inl (ValueError_parse (first_unparsed (values s)))
  end.

(** *** [series.astype(str)] and [+] on text *)

(** [str(x)] of a numeric scalar. *)
Variable number_str : number -> string.

Definition str (v : scalar) : string :=
  match v with
  | Null => "nan"
  | Num x => number_str x
  | Str s => s
  end.

Definition astype_str (s : Series) : list string := map str (values s).

(** [a + " - " + b] on two Series of text: Python adds from the left. *)
Definition join_text (a b : list string) : Series :=
  mkSeries object (zip_with (fun u v => Str ((u +:+ " - ") +:+ v)) a b).

End Frames.

Arguments scalar : clear implicits.
Arguments Series : clear implicits.
Arguments DataFrame : clear implicits.

(** ** The state of a run *)

(** [self.metrics], a dict.  The keys set in [__init__] are always there
    (the two times start as [None]); the last three keys are absent until
    [run] writes them. *)
Record Metrics := mkMetrics {
  rows_processed : Z;
  rows_filtered : Z;
  rows_with_errors : Z;
  start_time : option string;
  end_time : option string;
  execution_time_seconds : option Q;
  status : option string;
  error : option string
}.

Definition set_rows_processed (n : Z) (m : Metrics) : Metrics :=
  mkMetrics n (rows_filtered m) (rows_with_errors m) (start_time m) (end_time m)
    (execution_time_seconds m) (status m) (error m).
Definition set_rows_filtered (n : Z) (m : Metrics) : Metrics :=
  mkMetrics (rows_processed m) n (rows_with_errors m) (start_time m) (end_time m)
    (execution_time_seconds m) (status m) (error m).
Definition set_start_time (t : string) (m : Metrics) : Metrics :=
  mkMetrics (rows_processed m) (rows_filtered m) (rows_with_errors m) (Some t)
    (end_time m) (execution_time_seconds m) (status m) (error m).
Definition set_end_time (t : string) (m : Metrics) : Metrics :=
  mkMetrics (rows_processed m) (rows_filtered m) (rows_with_errors m)
    (start_time m) (Some t) (execution_time_seconds m) (status m) (error m).
Definition set_execution_time_seconds (d : Q) (m : Metrics) : Metrics :=
  mkMetrics (rows_processed m) (rows_filtered m) (rows_with_errors m)
    (start_time m) (end_time m) (Some d) (status m) (error m).
Definition set_status (v : string) (m : Metrics) : Metrics :=
  mkMetrics (rows_processed m) (rows_filtered m) (rows_with_errors m)
    (start_time m) (end_time m) (execution_time_seconds m) (Some v) (error m).
Definition set_error (v : string) (m : Metrics) : Metrics :=
  mkMetrics (rows_processed m) (rows_filtered m) (rows_with_errors m)
    (start_time m) (end_time m) (execution_time_seconds m) (status m) (Some v).

(** The dict that [__init__] builds. *)
Definition new_metrics : Metrics :=
  mkMetrics 0 0 0 None None None None None.

(** The configuration held by an [ETLPipeline] object. *)
Record ETLPipeline := mkPipeline {
  source_path : string;
  target_path : string;
  db_path : string
}.

(** [os.path.basename] (POSIX): what follows the last slash. *)
Fixpoint basename_from (cur p : string) : string :=
  match p with
  | EmptyString => cur
  | String c r =>
      if Ascii.eqb c "/"%char then basename_from "" r
      else basename_from (cur +:+ String c "") r
  end.

Definition basename (p : string) : string := basename_from "" p.

(** ** Texts *)

Definition code (c : ascii) : Z := Z.of_nat (nat_of_ascii c).

Fixpoint all_chars (p : ascii -> bool) (s : string) : bool :=
  match s with
  | EmptyString => true
  | String c r => p c && all_chars p r
  end.

Definition is_letter (c : ascii) : bool :=
  bool_decide (65 <= code c <= 90) || bool_decide (97 <= code c <= 122).

Definition is_digit (c : ascii) : bool := bool_decide (48 <= code c <= 57).

Definition is_underscore (c : ascii) : bool := Ascii.eqb c "_"%char.

(** [str.upper] on the letters of ASCII. *)
Definition upper_char (c : ascii) : ascii :=
  if bool_decide (97 <= code c <= 122)
  then ascii_of_nat (nat_of_ascii c - 32)
  else c.

Fixpoint upper (s : string) : string :=
  match s with
  | EmptyString => EmptyString
  | String c r => String (upper_char c) (upper r)
  end.

(** The keywords of SQLite. *)
Definition sqlite_keywords : list string :=
  ["ABORT"; "ACTION"; "ADD"; "AFTER"; "ALL"; "ALTER"; "ALWAYS"; "ANALYZE";
   "AND"; "AS"; "ASC"; "ATTACH"; "AUTOINCREMENT"; "BEFORE"; "BEGIN";
   "BETWEEN"; "BY"; "CASCADE"; "CASE"; "CAST"; "CHECK"; "COLLATE"; "COLUMN";
   "COMMIT"; "CONFLICT"; "CONSTRAINT"; "CREATE"; "CROSS"; "CURRENT";
   "CURRENT_DATE"; "CURRENT_TIME"; "CURRENT_TIMESTAMP"; "DATABASE";
   "DEFAULT"; "DEFERRABLE"; "DEFERRED"; "DELETE"; "DESC"; "DETACH";
   "DISTINCT"; "DO"; "DROP"; "EACH"; "ELSE"; "END"; "ESCAPE"; "EXCEPT";
   "EXCLUDE"; "EXCLUSIVE"; "EXISTS"; "EXPLAIN"; "FAIL"; "FILTER"; "FIRST";
   "FOLLOWING"; "FOR"; "FOREIGN"; "FROM"; "FULL"; "GENERATED"; "GLOB";
   "GROUP"; "GROUPS"; "HAVING"; "IF"; "IGNORE"; "IMMEDIATE"; "IN"; "INDEX";
   "INDEXED"; "INITIALLY"; "INNER"; "INSERT"; "INSTEAD"; "INTERSECT"; "INTO";
   "IS"; "ISNULL"; "JOIN"; "KEY"; "LAST"; "LEFT"; "LIKE"; "LIMIT"; "MATCH";
   "MATERIALIZED"; "NATURAL"; "NO"; "NOT"; "NOTHING"; "NOTNULL"; "NULL";
   "NULLS"; "OF"; "OFFSET"; "ON"; "OR"; "ORDER"; "OTHERS"; "OUTER"; "OVER";
   "PARTITION"; "PLAN"; "PRAGMA"; "PRECEDING"; "PRIMARY"; "QUERY"; "RAISE";
   "RANGE"; "RECURSIVE"; "REFERENCES"; "REGEXP"; "REINDEX"; "RELEASE";
   "RENAME"; "REPLACE"; "RESTRICT"; "RETURNING"; "RIGHT"; "ROLLBACK"; "ROW";
   "ROWS"; "SAVEPOINT"; "SELECT"; "SET"; "TABLE"; "TEMP"; "TEMPORARY";
   "THEN"; "TIES"; "TO"; "TRANSACTION"; "TRIGGER"; "UNBOUNDED"; "UNION";
   "UNIQUE"; "UPDATE"; "USING"; "VACUUM"; "VALUES"; "VIEW"; "VIRTUAL";
   "WHEN"; "WHERE"; "WINDOW"; "WITH"; "WITHOUT"].

(** A table name that SQLite reads as the one identifier it is when a
    statement has it without quotes: letters, digits and underscores of
    ASCII, no digit first, no keyword in any case. *)
Definition bare_name (name : string) : bool :=
  match name with
  | EmptyString => false
  | String c r =>
      (is_letter c || is_underscore c)
      && all_chars (fun c => is_letter c || is_digit c || is_underscore c) r
      && bool_decide (upper name ∉ sqlite_keywords)
  end.

Section Pipeline.

Context {number : Type}.

Abbreviation DataFrame := (DataFrame number).
Abbreviation Series := (Series number).

(** What the pipeline does not define itself: the parsers and printers of
    pandas and of [datetime], the clock, and the refusals of the file
    system and of sqlite3. *)
Record Env := mkEnv {
  parse_number : string -> option (option number);
  number_str : number -> string;
  (** [pd.read_csv] on the text of a file *)
  read_csv : string -> exception + DataFrame;
  (** the text that [DataFrame.to_csv(index=False)] writes *)
  to_csv : DataFrame -> string;
  (** the error, if any, of opening a path for writing *)
  open_error : string -> option exception;
  (** the error, if any, of [sqlite3.connect] on a path *)
  connect_error : string -> option exception;
  (** the error, if any, of [to_sql] for a table name and a frame *)
  to_sql_error : string -> DataFrame -> option exception;
  (** the error, if any, of [cursor.execute] for a statement, in a data
      base with the given tables *)
  execute_error : gmap string DataFrame -> string -> option exception;
  (** successive readings of [datetime.datetime.now()], in microseconds *)
  clock : nat -> Z;
  isoformat : Z -> string;
  fromisoformat : string -> exception + Z
}.

Variable env : Env.

(** A reference to a frame object. *)
Definition ref := nat.

Record State := mkState {
  heap : list DataFrame;                       (* the frame objects *)
  metrics : Metrics;                           (* self.metrics *)
  files : gmap string string;                  (* path to text *)
  db : gmap string (gmap string DataFrame);    (* db path to tables *)
  ticks : nat                                  (* clock readings so far *)
}.

(** Computations that read and write the state and may raise; what was
    written before an exception stays written. *)
Definition M (A : Type) : Type := State -> (exception + A) * State.

Global Instance M_ret : MRet M := fun A x s => (inr x, s).

Global Instance M_bind : MBind M := fun A B f m s =>
  match m s with
  | (inr x, s') => f x s'
  | (inl e, s') => (inl e, s')
  end.

Definition raise {A} (e : exception) : M A := fun s => (inl e, s).

(** [try: body  except: handler] *)
Definition try_except {A} (body : M A) (handler : exception -> M A) : M A :=
  fun s =>
    match body s with
    | (inl e, s') => handler e s'
    | r => r
    end.

Definition lift {A} (r : exception + A) : M A :=
  match r with inl e => raise e | inr x => mret x end.

Fixpoint for_each {A} (l : list A) (body : A -> M unit) : M unit :=
  match l with
  | [] => mret tt
  | x :: l' => body x ;; for_each l' body
  end.

Definition set_heap (h : list DataFrame) (s : State) : State :=
  mkState h (metrics s) (files s) (db s) (ticks s).

Definition set_metrics (m : Metrics) (s : State) : State :=
  mkState (heap s) m (files s) (db s) (ticks s).

Definition set_files (f : gmap string string) (s : State) : State :=
  mkState (heap s) (metrics s) f (db s) (ticks s).

Definition set_db (d : gmap string (gmap string DataFrame)) (s : State) : State :=
  mkState (heap s) (metrics s) (files s) d (ticks s).

Definition set_ticks (n : nat) (s : State) : State :=
  mkState (heap s) (metrics s) (files s) (db s) n.

Definition deref (r : ref) : M DataFrame := fun s =>
  match heap s !! r with
  | Some df => (inr df, s)
  | None => (inl (Exception "ReferenceError" "no such object"), s)
  end.

(** A new frame object. *)
Definition alloc (df : DataFrame) : M ref := fun s =>
  (inr (length (heap s)), set_heap (heap s ++ [df]) s).

(** Mutation of a frame object in place. *)
Definition update (r : ref) (f : DataFrame -> DataFrame) : M unit := fun s =>
  match heap s !! r with
  | Some df => (inr tt, set_heap (<[r := f df]> (heap s)) s)
  | None => (inl (Exception "ReferenceError" "no such object"), s)
  end.

Definition modify_metrics (f : Metrics -> Metrics) : M unit := fun s =>
  (inr tt, set_metrics (f (metrics s)) s).

Definition get_metrics : M Metrics := fun s => (inr (metrics s), s).

Definition get_files : M (gmap string string) := fun s => (inr (files s), s).

(** [datetime.datetime.now()] *)
Definition now : M Z := fun s =>
  (inr (clock env (ticks s)), set_ticks (S (ticks s)) s).

(** ** [ETLPipeline.transform] *)

(** Step 1: rows with a missing value are dropped, into a new frame
    object, and counted. *)
Definition data_cleaning (data : ref) : M ref :=
  df ← deref data;
  let original_count := len df in
  data_cleaned ← alloc (dropna df);
  dc ← deref data_cleaned;
  let filtered := original_count - len dc in
  modify_metrics (fun m => set_rows_filtered (rows_filtered m + filtered) m) ;;
  mret data_cleaned.

(** Step 2, one column: it becomes numeric when [pd.to_numeric] accepts it;
    the bare [except] drops any failure. *)
Definition convert_column (data_cleaned : ref) (col : string) : M unit :=
  try_except
    (df ← deref data_cleaned;
     s ← lift (getitem df col);
     _ ← lift (to_numeric (parse_number env) s);
     df ← deref data_cleaned;
     s ← lift (getitem df col);
     converted ← lift (to_numeric (parse_number env) s);
     update data_cleaned (fun df => setitem df col converted))
    (fun _ => mret tt).

(** Step 2: the columns of dtype object, listed before the loop starts. *)
Definition data_validation (data_cleaned : ref) : M unit :=
  df ← deref data_cleaned;
  let numeric_columns := object_columns df in
  for_each numeric_columns (convert_column data_cleaned).

(** Step 3: the two metadata columns. *)
Definition data_enrichment (self : ETLPipeline) (data_cleaned : ref) : M unit :=
  t ← now;
  update data_cleaned (fun df =>
    setitem df "etl_timestamp" (broadcast df (isoformat env t))) ;;
  update data_cleaned (fun df =>
    setitem df "source_file" (broadcast df (basename (source_path self)))).

(** Step 4: the joined column, from the first two columns of dtype
    object. *)
Definition additional_transformations (data_cleaned : ref) : M unit :=
  df ← deref data_cleaned;
  let text_columns := take 2 (object_columns df) in
  if bool_decide (2 <= length text_columns)%nat then
    match text_columns with
    | col1 :: col2 :: _ =>
        df ← deref data_cleaned;
        match getitem df col1, getitem df col2 with
        | inr a, inr b =>
            update data_cleaned (fun df =>
              setitem df "combined_field"
                (join_text (astype_str (number_str env) a)
                           (astype_str (number_str env) b)))
        | _, _ => raise (ValueError_set "combined_field")
        end
    | _ => mret tt
    end
  else mret tt.

Definition transform (self : ETLPipeline) (data : ref) : M ref :=
  data_cleaned ← data_cleaning data;
  data_validation data_cleaned ;;
  data_enrichment self data_cleaned ;;
  additional_transformations data_cleaned ;;
  dc ← deref data_cleaned;
  modify_metrics (set_rows_processed (len dc)) ;;
  mret data_cleaned.

(** *** What each step does to the frame it works on *)

(** The metrics after step 1 on the frame [df]. *)
Definition counted (df : DataFrame) (m : Metrics) : Metrics :=
  set_rows_filtered (rows_filtered m + (len df - len (dropna df))) m.

Definition convert_frame (df : DataFrame) (col : string) : DataFrame :=
  match getitem df col with
  | inr s =>
      match to_numeric (parse_number env) s with
      | inr converted => setitem df col converted
      | inl _ => df
      end
  | inl _ => df
  end.

Definition validate_frame (df : DataFrame) : DataFrame :=
  foldl convert_frame df (object_columns df).

Definition enrich_frame (self : ETLPipeline) (t : Z) (df : DataFrame) : DataFrame :=
  let df1 := setitem df "etl_timestamp" (broadcast df (isoformat env t)) in
  setitem df1 "source_file" (broadcast df1 (basename (source_path self))).

Definition combine_frame (df : DataFrame) : exception + DataFrame :=
  match take 2 (object_columns df) with
  | col1 :: col2 :: _ =>
      match getitem df col1, getitem df col2 with
      | inr a, inr b =>
          inr (setitem df "combined_field"
                 (join_text (astype_str (number_str env) a)
                            (astype_str (number_str env) b)))
      | _, _ => inl (ValueError_set "combined_field")
      end
  | _ => inr df
  end.

(** The frame before step 4, and the outcome of all four steps, for the
    clock reading [t]. *)
Definition enriched_frame (self : ETLPipeline) (t : Z) (df : DataFrame) : DataFrame :=
  enrich_frame self t (validate_frame (dropna df)).

Definition transform_frame (self : ETLPipeline) (t : Z) (df : DataFrame)
    : exception + DataFrame :=
  combine_frame (enriched_frame self t df).

(** The numeric form of a column, when it has one. *)
Definition numeric_form (s : Series) : Series :=
  match to_numeric (parse_number env) s with
  | inr converted => converted
  | inl _ => s
  end.

(** ** The other stages *)

(** [extract]: the whole file is read into a new frame; an error is logged
    and raised again. *)
Definition extract (self : ETLPipeline) : M ref :=
  try_except
    (fs ← get_files;
     match fs !! source_path self with
     | None => raise (FileNotFoundError (source_path self))
     | Some text => df ← lift (read_csv env text); alloc df
     end)
    (fun e => raise e).

(** [load_to_csv]: the target file is replaced by the text of the frame. *)
Definition load_to_csv (self : ETLPipeline) (data : ref) : M unit :=
  try_except
    (df ← deref data;
     match open_error env (target_path self) with
     | Some e => raise e
     | None => fun s =>
         (inr tt, set_files (<[target_path self := to_csv env df]> (files s)) s)
     end)
    (fun e => raise e).

(** [cursor.execute(f"SELECT COUNT(*) FROM {table_name}")]: the statement
    has the name as it is, without quotes, where [to_sql] quotes it.  A
    bare name is read as the table that [to_sql] has just written, and the
    count succeeds; what SQLite makes of the statement for any other name
    (most often a syntax error) is the environment's. *)
Definition count_query (table_name : string) : string :=
  "SELECT COUNT(*) FROM " +:+ table_name.

Definition count_error (tables : gmap string DataFrame) (table_name : string)
    : option exception :=
  if bare_name table_name then None
  else execute_error env tables (count_query table_name).

(** [load_to_db]: the named table is replaced by the frame, then its rows
    are counted for the log.  The count comes after [to_sql] has written
    the table: when it fails the table stays replaced. *)
Definition load_to_db (self : ETLPipeline) (data : ref) (table_name : string)
    : M unit :=
  try_except
    (df ← deref data;
     match connect_error env (db_path self) with
     | Some e => raise e
     | None =>
         match to_sql_error env table_name df with
         | Some e => raise e
         | None => fun s =>
             let tables :=
               <[table_name := df]> (default ∅ (db s !! db_path self)) in
             let s' := set_db (<[db_path self := tables]> (db s)) s in
             match count_error tables table_name with
             | Some e => (inl e, s')
             | None => (inr tt, s')
             end
         end
     end)
    (fun e => raise e).

(** ** [ETLPipeline.run] *)

(** [(end - start).total_seconds()], as an exact fraction of the
    microseconds. *)
Definition total_seconds (start finish : Z) : Q := (finish - start) # 1000000.

(** The body of the [try] of [run]. *)
Definition run_stages (self : ETLPipeline) : M Metrics :=
  data ← extract self;
  transformed_data ← transform self data;
  load_to_csv self transformed_data ;;
  load_to_db self transformed_data "processed_data" ;;
  t ← now;
  modify_metrics (set_end_time (isoformat env t)) ;;
  m ← get_metrics;
  start ← lift (fromisoformat env (default "" (start_time m)));
  m ← get_metrics;
  finish ← lift (fromisoformat env (default "" (end_time m)));
  modify_metrics (set_execution_time_seconds (total_seconds start finish)) ;;
  get_metrics.

Definition run (self : ETLPipeline) : M Metrics :=
  t ← now;
  modify_metrics (set_start_time (isoformat env t)) ;;
  try_except
    (run_stages self)
    (fun e =>
       t ← now;
       modify_metrics (set_end_time (isoformat env t)) ;;
       modify_metrics (set_status "failed") ;;
       modify_metrics (set_error (exc_msg e)) ;;
       get_metrics).

(** The state when the [try] of [run] is entered. *)
Definition started (s : State) : State :=
  set_metrics (set_start_time (isoformat env (clock env (ticks s))) (metrics s))
    (set_ticks (S (ticks s)) s).

(** What [run] reports of a failure with the exception [e]. *)
Definition failed_with (e : exception) (m : Metrics) : Prop :=
  status m = Some "failed" /\ error m = Some (exc_msg e) /\ is_Some (end_time m).

(** The exceptions that the environment hands out say something. *)
Definition env_messages_nonempty : Prop :=
  (forall text e, read_csv env text = inl e -> exc_msg e <> "") /\
  (forall path e, open_error env path = Some e -> exc_msg e <> "") /\
  (forall path e, connect_error env path = Some e -> exc_msg e <> "") /\
  (forall name df e, to_sql_error env name df = Some e -> exc_msg e <> "") /\
  (forall text e, fromisoformat env text = inl e -> exc_msg e <> "").

(** A computation whose exceptions all say something. *)
Definition outspoken {A} (m : M A) : Prop :=
  forall s e s', m s = (inl e, s') -> exc_msg e <> "".

(** A computation that writes neither a file nor a table. *)
Definition keeps_outputs {A} (m : M A) : Prop :=
  forall s r s', m s = (r, s') -> files s' = files s /\ db s' = db s.

(** A computation that writes no table. *)
Definition keeps_db {A} (m : M A) : Prop :=
  forall s r s', m s = (r, s') -> db s' = db s.

(** The derived column as the specification words it: the frame returned
    bears [combined_field] exactly when two columns at least are of dtype
    object after step 2. *)
Definition combined_field_as_specified (self : ETLPipeline) (data : ref)
    (s : State) (df : DataFrame) : Prop :=
  forall out s' df',
    transform self data s = (inr out, s') ->
    heap s' !! out = Some df' ->
    "combined_field" ∈ labels df'
    <-> (2 <= length (object_columns (validate_frame (dropna df))))%nat.


(** The state in which a new pipeline object starts its run. *)
Definition initial_state (fs : gmap string string)
    (d : gmap string (gmap string DataFrame)) : State :=
  mkState [] new_metrics fs d 0.

End Pipeline.

(** ** A small environment and sample frames

    Numbers are integers, written in decimal; an empty file is not CSV and
    every other file reads as the frame [people]; the file system refuses
    nothing, and the store refuses nothing but the statements that are left
    to it, those that count the rows of a table whose name is not bare; the
    clock counts its readings. *)

Definition digit_value (c : ascii) : option Z :=
  let n := Z.of_nat (nat_of_ascii c) in
  if bool_decide (48 <= n <= 57) then Some (n - 48) else None.

Fixpoint parse_digits_from (acc : Z) (s : string) : option Z :=
  match s with
  | EmptyString => Some acc
  | String c r => d ← digit_value c; parse_digits_from (10 * acc + d) r
  end.

Definition parse_digits (s : string) : option (option Z) :=
  match s with
  | EmptyString => None
  | _ => Some <$> parse_digits_from 0 s
  end.

(** Three rows; the last one lacks a name, and its age is not a number. *)
Definition people : DataFrame Z :=
  mkFrame 3 [("id", mkSeries numeric [Num 1; Num 2; Num 3]);
             ("name", mkSeries object [Str "ann"; Str "bob"; Null]);
             ("age", mkSeries object [Str "31"; Str "40"; Str "x"])].

Definition sample_read_csv (text : string) : exception + DataFrame Z :=
  match text with
  | EmptyString => inl (Exception "EmptyDataError" "No columns to parse from file")
  | _ => inr people
  end.

Definition sample_fromisoformat (text : string) : exception + Z :=
  match parse_digits text with
  | Some (Some t) => inr t
  | _ => inl (Exception "ValueError" "Invalid isoformat string")
  end.

(** Every statement that is put to the store is refused. *)
Definition sample_execute_error (tables : gmap string (DataFrame Z))
    (statement : string) : option exception :=
  Some (Exception "OperationalError" "syntax error").

Definition sample_env : @Env Z :=
  mkEnv parse_digits pretty sample_read_csv
    (fun df => pretty (len df)) (fun _ => None) (fun _ => None) (fun _ _ => None)
    sample_execute_error (fun n => Z.of_nat n) pretty sample_fromisoformat.

Definition sample_pipeline : ETLPipeline :=
  mkPipeline "data/people.csv" "out.csv" "etl_output.db".


(** One numeric column, one row. *)
Definition ids : DataFrame Z :=
  mkFrame 1 [("id", mkSeries numeric [Num 7])].

(** A header and no row. *)
Definition no_rows : DataFrame Z :=
  mkFrame 0 [("id", mkSeries object []); ("name", mkSeries object [])].

Definition state_with (df : DataFrame Z) : @State Z :=
  mkState [df] new_metrics ∅ ∅ 0.

(** ** What a computation leaves of the metrics *)

Section Reports.

Context {number : Type}.

(** A computation that leaves the reading [f] of the metrics as it was. *)
Definition keeps {A X} (f : Metrics -> X) (m : @M number A) : Prop :=
  forall s r s', m s = (r, s') -> f (metrics s') = f (metrics s).

(** The failure report of the metrics, and their row counts. *)
Definition report (m : Metrics) : Z * option string * option string :=
  (rows_with_errors m, status m, error m).

Definition counts (m : Metrics) : Z * Z :=
  (rows_processed m, rows_filtered m).

End Reports.

(** A path with a slash in it. *)
Fixpoint has_slash (p : string) : bool :=
  match p with
  | EmptyString => false
  | String c r => Ascii.eqb c "/"%char || has_slash r
  end.

(** ** [main.py] *)

Section Main.

Context {number : Type}.

(** A value handed to [csv.writer]: an integer, a text or a float. *)
Inductive field :=
| FInt (i : Z)
| FText (s : string)
| FFloat (x : number).

(** What [main.py] leaves to Python: the text that [csv.writer] makes of
    rows, and the float [round(50 + i * 1.5, 2)]. *)
Record Writer := mkWriter {
  csv_text : list (list field) -> string;
  purchase_amount : Z -> number
}.

Variable env : @Env number.
Variable writer : Writer.

(** [range(a, b)] *)
Definition range (a b : Z) : list Z :=
  (fun k => a + Z.of_nat k) <$> seq 0 (Z.to_nat (b - a)).

Definition header : list field :=
  [FText "id"; FText "name"; FText "age"; FText "email"; FText "purchase_amount"].

(** The row written for [i]: every tenth row has an empty age. *)
Definition sample_row (i : Z) : list field :=
  if bool_decide (i mod 10 = 0) then
    [FInt i; FText ("Person " +:+ pretty i); FText "";
     FText ("person" +:+ pretty i +:+ "@example.com");
     FFloat (purchase_amount writer i)]
  else
    [FInt i; FText ("Person " +:+ pretty i); FInt (20 + i mod 40);
     FText ("person" +:+ pretty i +:+ "@example.com");
     FFloat (purchase_amount writer i)].

Definition sample_rows (num_rows : Z) : list (list field) :=
  sample_row <$> range 1 (num_rows + 1).

(** [generate_sample_data]: the header and the rows, written to a file
    opened for writing. *)
Definition generate_sample_data (filename : string) (num_rows : Z)
    : @M number unit :=
  match open_error env filename with
  | Some e => raise e
  | None => fun s =>
      (inr tt,
       set_files
         (<[filename := csv_text writer (header :: sample_rows num_rows)]> (files s))
         s)
  end.

(** [ETLPipeline.__init__]: the paths are stored and the metrics start
    anew. *)
Definition __init__ (source target store : string) : @M number ETLPipeline :=
  modify_metrics (fun _ => new_metrics) ;;
  mret (mkPipeline source target store).

(** The block under [if __name__ == "__main__"], which runs once the
    imports at the head of the file are through. *)
Definition main : @M number Metrics :=
  let sample_file := "sample_data.csv" in
  let output_file := "processed_data.csv" in
  generate_sample_data sample_file 100 ;;
  (* db_path is left to its default *)
  pipeline ← __init__ sample_file output_file "etl_output.db";
  run env pipeline.




(** A field that is the empty text, and a row with such a field. *)
Definition is_empty_text (f : field) : bool :=
  match f with
  | FText EmptyString => true
  | _ => false
  end.

Definition has_empty_field (row : list field) : bool := existsb is_empty_text row.

(** The frame [df] has a missing value in exactly the rows that have an
    empty field, as a frame read from the text of these rows has. *)
Definition reads_as (data_rows : list (list field)) (df : DataFrame number) : Prop :=
  map (row_complete df) (seq 0 (nrows df))
  = map (fun row => negb (has_empty_field row)) data_rows.

(** The stages of [run] that follow [transform]. *)
Definition run_loads (self : ETLPipeline) (transformed_data : ref)
    : @M number Metrics :=
  load_to_csv env self transformed_data ;;
  load_to_db env self transformed_data "processed_data" ;;
  t ← now env;
  modify_metrics (set_end_time (isoformat env t)) ;;
  m ← get_metrics;
  start ← lift (fromisoformat env (default "" (start_time m)));
  m ← get_metrics;
  finish ← lift (fromisoformat env (default "" (end_time m)));
  modify_metrics (set_execution_time_seconds (total_seconds start finish)) ;;
  get_metrics.

End Main.

Arguments field : clear implicits.
Arguments Writer : clear implicits.

(** A frame for rows of fields, for the sample environment: the labels
    are the texts of the header, an empty text is a missing value, and a
    column with a text that is not empty is of dtype object. *)
Definition field_text (f : field Z) : string :=
  match f with
  | FText s => s
  | FInt i => pretty i
  | FFloat x => pretty x
  end.

Definition scalar_of_field (f : option (field Z)) : scalar Z :=
  match f with
  | Some (FInt i) => Num i
  | Some (FFloat x) => Num x
  | Some (FText EmptyString) | None => Null
  | Some (FText s) => Str s
  end.

Definition column_of_fields (data_rows : list (list (field Z))) (j : nat) : Series Z :=
  let vs := map (fun row => scalar_of_field (row !! j)) data_rows in
  mkSeries
    (if existsb (fun v => match v with Str _ => true | _ => false end) vs
     then object else numeric)
    vs.

Definition frame_of_rows (rows : list (list (field Z))) : DataFrame Z :=
  match rows with
  | [] => mkFrame 0 []
  | head :: data_rows =>
      mkFrame (length data_rows)
        (imap (fun j f => (field_text f, column_of_fields data_rows j)) head)
  end.

Definition sample_writer : Writer Z :=
  mkWriter (fun rows => pretty (Z.of_nat (length rows))) (fun i => 50 + 2 * i).

(** The environment of the script: every file reads as the frame of the
    hundred sample rows. *)
Definition script_env : @Env Z :=
  mkEnv parse_digits pretty
    (fun _ => inr (frame_of_rows (header :: sample_rows sample_writer 100)))
    (fun df => pretty (len df)) (fun _ => None) (fun _ => None) (fun _ _ => None)
    sample_execute_error (fun n => Z.of_nat n) pretty sample_fromisoformat.

(** Sample states and environments that refuse. *)
Definition sample_files : gmap string string :=
  {[ "data/people.csv" := "id,name,age" ]}.

Definition script_frame (num_rows : Z) : DataFrame Z :=
  frame_of_rows (header :: sample_rows sample_writer num_rows).

Definition PermissionError : exception :=
  Exception "PermissionError" "[Errno 13] Permission denied".

Definition OperationalError : exception :=
  Exception "OperationalError" "unable to open database file".

Definition read_only_env : @Env Z :=
  mkEnv parse_digits pretty sample_read_csv
    (fun df => pretty (len df)) (fun _ => Some PermissionError) (fun _ => None)
    (fun _ _ => None) sample_execute_error (fun n => Z.of_nat n) pretty
    sample_fromisoformat.

Definition no_store_env : @Env Z :=
  mkEnv parse_digits pretty sample_read_csv
    (fun df => pretty (len df)) (fun _ => None) (fun _ => Some OperationalError)
    (fun _ _ => None) sample_execute_error (fun n => Z.of_nat n) pretty
    sample_fromisoformat.

(** ** CSV text

    [DataFrame.to_csv(path, index=False)] and [pd.read_csv(path)] with
    their defaults, on the texts that both handle without quoting: fields
    of printable ASCII characters other than the comma and the double
    quote, records ended by a line feed.  Where they say nothing ([None])
    the writer and the reader of pandas are not modelled: quoted fields,
    other characters and line ends, fields that start with a space, the
    markers of a missing value other than the empty field, truth values,
    repeated or empty header fields, records that are shorter or longer
    than the header, columns that mix numbers and texts. *)

Definition comma : ascii := ","%char.
Definition line_feed : ascii := "010"%char.
Definition double_quote : ascii := "034"%char.

(** A character that the writer never quotes. *)
Definition plain_char (c : ascii) : bool :=
  bool_decide (32 <= code c <= 126)
  && negb (Ascii.eqb c comma) && negb (Ascii.eqb c double_quote).

Definition plain (s : string) : bool := all_chars plain_char s.





(** The fields of a record, and the records of a text. *)
Fixpoint join_fields (fields : list string) : string :=
  match fields with
  | [] => ""
  | f :: rest =>
      match rest with
      | [] => f
      | _ => f +:+ String comma (join_fields rest)
      end
  end.

Fixpoint text_of (records : list string) : string :=
  match records with
  | [] => ""
  | r :: rest => r +:+ text_of rest
  end.





Section Csv.

Context {number : Type}.

Abbreviation DataFrame := (DataFrame number).
Abbreviation Series := (Series number).
Abbreviation scalar := (scalar number).

(** The text of a number, and the number that a field of a file reads as,
    if it reads as one.  Numbers are told apart by their value, not by
    their being of type int64 or float64. *)
Variable number_str : number -> string.
Variable read_number : string -> option number.

(** *** The writer *)

(** A missing value is written as the empty field ([na_rep='']). *)
Definition csv_cell (v : scalar) : string :=
  match v with
  | Null => ""
  | Num x => number_str x
  | Str s => s
  end.

(** One record.  [csv.writer] quotes a field that is not plain, and the
    empty field when it is alone in its record. *)
Definition csv_record (fields : list string) : option string :=
  if forallb plain fields
     && bool_decide (fields <> []) && bool_decide (fields <> [""])
  then Some (join_fields fields +:+ String line_feed "")
  else None.

(** The header, then the rows. *)
Definition frame_csv (df : DataFrame) : option string :=
  records ← mapM csv_record (labels df :: map (map csv_cell) (rows df));
  Some (text_of records).

(** *** The reader *)








(** *** Frames that come back *)








Variable env : @Env number.





End Csv.




(** Two rows, one of them with a missing value. *)
Definition visits : DataFrame Z :=
  mkFrame 2 [("name", mkSeries object [Str "ann"; Null]);
             ("city", mkSeries object [Str "rome"; Str "oslo"]);
             ("count", mkSeries numeric [Num 3; Num 12])].


(** * Properties *)

(** Closed decidable goals are settled by evaluation. *)
Ltac by_computation :=
  refine (bool_decide_eq_true_1 _ _); vm_compute; reflexivity.

(** ** Frames *)

Section FrameFacts.

Context {number : Type}.

Implicit Types (df : DataFrame number) (s : Series number) (label : string).

Lemma labels_dropna df : labels (dropna df) = labels df.
Proof.
  unfold labels, dropna; simpl. rewrite <- list_fmap_compose.
  by apply list_fmap_ext.
Qed.

Lemma nrows_dropna_le df : (nrows (dropna df) <= nrows df)%nat.
Proof.
  unfold dropna, notna_positions; simpl.
  etrans; [apply length_filter|]. by rewrite length_seq.
Qed.

Lemma nrows_setitem df label s : nrows (setitem df label s) = nrows df.
Proof. unfold setitem. by case_decide. Qed.

Lemma labels_setitem_old df label s :
  label ∈ labels df -> labels (setitem df label s) = labels df.
Proof.
  intros Hin. unfold setitem, labels. rewrite decide_True by done. simpl.
  rewrite <- list_fmap_compose. apply list_fmap_ext.
  intros i [k v] _; simpl. by case_decide.
Qed.

Lemma labels_setitem_new df label s :
  label ∉ labels df -> labels (setitem df label s) = labels df ++ [label].
Proof.
  intros Hin. unfold setitem, labels. rewrite decide_False by done. simpl.
  by rewrite fmap_app.
Qed.

Lemma unique_labels_setitem df label s :
  unique_labels df -> unique_labels (setitem df label s).
Proof.
  unfold unique_labels. intros Hnd.
  destruct (decide (label ∈ labels df)) as [Hin|Hin].
  - by rewrite labels_setitem_old.
  - rewrite labels_setitem_new by done. apply NoDup_app. split_and!; [done| |].
    + intros x Hx Hx'. apply list_elem_of_singleton in Hx'. by subst.
    + apply NoDup_singleton.
Qed.

Lemma filter_label_absent (cols : list (string * Series number)) label :
  label ∉ cols.*1 -> filter (fun c => c.1 = label) cols = [].
Proof.
  induction cols as [|[k v] cols IH]; [done|]. simpl. intros Hin.
  rewrite not_elem_of_cons in Hin. destruct Hin as [Hne Hin].
  rewrite filter_cons_False by (simpl; congruence). auto.
Qed.

Lemma filter_label_unique (cols : list (string * Series number)) label s :
  NoDup cols.*1 -> (label, s) ∈ cols ->
  filter (fun c => c.1 = label) cols = [(label, s)].
Proof.
  induction cols as [|[k v] cols IH]; simpl; intros Hnd Hin.
  - by apply elem_of_nil in Hin.
  - apply NoDup_cons in Hnd as [Hk Hnd]. apply elem_of_cons in Hin as [Heq|Hin].
    + inversion Heq; subst. rewrite filter_cons_True by done.
      by rewrite filter_label_absent.
    + assert (k ≠ label) as Hne.
      { intros ->. apply Hk. apply list_elem_of_fmap. by exists (label, s). }
      rewrite filter_cons_False by done. auto.
Qed.

Lemma getitem_unique df label s :
  unique_labels df -> (label, s) ∈ columns df -> getitem df label = inr s.
Proof.
  intros Hnd Hin. unfold getitem. by rewrite (filter_label_unique _ _ s).
Qed.

Lemma getitem_elem_of df label s :
  getitem df label = inr s -> (label, s) ∈ columns df.
Proof.
  unfold getitem. intros H.
  destruct (filter _ (columns df)) as [|c [|c' l]] eqn:Hf; try done.
  assert (c ∈ filter (fun c => c.1 = label) (columns df)) as Hc
    by (rewrite Hf; apply list_elem_of_here).
  apply list_elem_of_filter in Hc as [Hl Hc]. destruct c as [k v]; simpl in *.
  by simplify_eq.
Qed.

Lemma elem_of_setitem df label s : (label, s) ∈ columns (setitem df label s).
Proof.
  unfold setitem. case_decide as Hin; simpl.
  - apply list_elem_of_fmap in Hin as [[k v] [-> Hin]]. simpl.
    apply list_elem_of_fmap. exists (k, v). split; [|done]. simpl.
    by rewrite decide_True.
  - apply elem_of_app. right. apply list_elem_of_here.
Qed.

Lemma getitem_setitem_eq df label s :
  unique_labels df -> getitem (setitem df label s) label = inr s.
Proof.
  intros Hnd. apply getitem_unique.
  - by apply unique_labels_setitem.
  - apply elem_of_setitem.
Qed.

Lemma filter_label_fmap (cols : list (string * Series number)) label label' s :
  label ≠ label' ->
  filter (fun c => c.1 = label')
    ((fun c => if decide (c.1 = label) then (label, s) else c) <$> cols)
  = filter (fun c => c.1 = label') cols.
Proof.
  intros Hne. induction cols as [|[k v] cols IH]; [done|]. rewrite fmap_cons.
  simpl. destruct (decide (k = label)) as [->|Hk].
  - rewrite !filter_cons_False by done. exact IH.
  - destruct (decide (k = label')) as [->|Hk'].
    + rewrite !filter_cons_True by done. by rewrite IH.
    + rewrite !filter_cons_False by done. exact IH.
Qed.

Lemma getitem_setitem_ne df label label' s :
  label ≠ label' -> getitem (setitem df label s) label' = getitem df label'.
Proof.
  intros Hne. unfold getitem, setitem. case_decide; simpl.
  - by rewrite filter_label_fmap.
  - rewrite filter_app. rewrite filter_cons_False by done.
    rewrite filter_nil. by rewrite app_nil_r.
Qed.

End FrameFacts.

(** ** The steps of [transform], on frames *)

Section StepFacts.

Context {number : Type} (env : @Env number).

Implicit Types (df : DataFrame number) (s : Series number) (label : string).

Lemma unique_column df label s s' :
  unique_labels df -> (label, s) ∈ columns df -> (label, s') ∈ columns df -> s = s'.
Proof.
  intros Hnd H1 H2.
  pose proof (getitem_unique _ _ _ Hnd H1) as E1.
  pose proof (getitem_unique _ _ _ Hnd H2) as E2. congruence.
Qed.

Lemma elem_of_labels df label s : (label, s) ∈ columns df -> label ∈ labels df.
Proof. intros H. apply list_elem_of_fmap. by exists (label, s). Qed.

Lemma nrows_convert_frame df col : nrows (convert_frame env df col) = nrows df.
Proof.
  unfold convert_frame. destruct (getitem df col); [done|].
  destruct (to_numeric _ _); [done|]. apply nrows_setitem.
Qed.

Lemma labels_convert_frame df col : labels (convert_frame env df col) = labels df.
Proof.
  unfold convert_frame. destruct (getitem df col) as [|s] eqn:Hget; [done|].
  destruct (to_numeric _ _); [done|]. apply labels_setitem_old.
  eapply elem_of_labels, getitem_elem_of, Hget.
Qed.

Lemma columns_convert_frame df col :
  unique_labels df -> col ∈ labels df ->
  columns (convert_frame env df col)
  = (fun c => if decide (c.1 = col) then (c.1, numeric_form env c.2) else c)
      <$> columns df.
Proof.
  intros Hnd Hin. apply list_elem_of_fmap in Hin as [[k s] [-> Hin]]. simpl.
  unfold convert_frame. rewrite (getitem_unique _ _ _ Hnd Hin).
  destruct (to_numeric (parse_number env) s) as [e|v] eqn:Hnum.
  - rewrite <- (list_fmap_id (columns df)) at 1. apply list_fmap_ext.
    intros i [k' s'] Hi; simpl. case_decide as Hk; [|done]. subst k'.
    apply list_elem_of_lookup_2 in Hi.
    rewrite <- (unique_column _ _ _ _ Hnd Hin Hi).
    unfold numeric_form. by rewrite Hnum.
  - unfold setitem. rewrite decide_True by (by eapply elem_of_labels). simpl.
    apply list_fmap_ext. intros i [k' s'] Hi; simpl. case_decide as Hk; [|done].
    subst k'. apply list_elem_of_lookup_2 in Hi.
    rewrite <- (unique_column _ _ _ _ Hnd Hin Hi).
    unfold numeric_form. by rewrite Hnum.
Qed.

Lemma nrows_foldl_convert (l : list string) : forall df,
  nrows (foldl (convert_frame env) df l) = nrows df.
Proof.
  induction l as [|col l IH]; intros df; simpl; [done|].
  by rewrite IH, nrows_convert_frame.
Qed.

Lemma labels_foldl_convert (l : list string) : forall df,
  labels (foldl (convert_frame env) df l) = labels df.
Proof.
  induction l as [|col l IH]; intros df; simpl; [done|].
  by rewrite IH, labels_convert_frame.
Qed.

Lemma columns_foldl_convert (l : list string) : forall df,
  unique_labels df -> NoDup l -> l ⊆ labels df ->
  columns (foldl (convert_frame env) df l)
  = (fun c => if decide (c.1 ∈ l) then (c.1, numeric_form env c.2) else c)
      <$> columns df.
Proof.
  induction l as [|col l IH]; intros df Hnd Hl Hsub; simpl.
  - rewrite <- (list_fmap_id (columns df)) at 1. apply list_fmap_ext.
    by intros i c _.
  - apply NoDup_cons in Hl as [Hcol Hl].
    assert (col ∈ labels df) as Hin by (apply Hsub; apply list_elem_of_here).
    rewrite IH.
    + rewrite columns_convert_frame by done. rewrite <- list_fmap_compose.
      apply list_fmap_ext. intros i [k s] _; simpl.
      destruct (decide (k = col)) as [->|Hk]; simpl.
      * rewrite decide_False by done. rewrite decide_True; [done|].
        apply list_elem_of_here.
      * destruct (decide (k ∈ l)) as [Hkl|Hkl].
        -- rewrite decide_True; [done|]. by apply list_elem_of_further.
        -- rewrite decide_False; [done|]. rewrite not_elem_of_cons. done.
    + unfold unique_labels. by rewrite labels_convert_frame.
    + done.
    + rewrite labels_convert_frame. intros x Hx. apply Hsub.
      by apply list_elem_of_further.
Qed.

Lemma object_columns_sublist df : object_columns df `sublist_of` labels df.
Proof. unfold object_columns, labels. apply fmap_sublist, sublist_filter. Qed.

Lemma elem_of_object_columns df label s :
  (label, s) ∈ columns df -> dtype_of s = object -> label ∈ object_columns df.
Proof.
  intros Hin Hobj. unfold object_columns. apply list_elem_of_fmap.
  exists (label, s). split; [done|]. apply list_elem_of_filter. split; [|done].
  unfold is_object; simpl. by apply bool_decide_eq_true.
Qed.

Lemma object_columns_elem_of df label :
  label ∈ object_columns df ->
  exists s, (label, s) ∈ columns df /\ dtype_of s = object.
Proof.
  unfold object_columns. intros Hin.
  apply list_elem_of_fmap in Hin as [[k s] [-> Hin]].
  apply list_elem_of_filter in Hin as [Hobj Hin]. exists s. split; [done|].
  unfold is_object in Hobj; simpl in Hobj. by apply bool_decide_eq_true in Hobj.
Qed.

(** Step 2 on a frame with unique labels: every column of dtype object is
    replaced by its numeric form, the others stay. *)
Lemma columns_validate_frame df :
  unique_labels df ->
  columns (validate_frame env df)
  = (fun c => if is_object c then (c.1, numeric_form env c.2) else c)
      <$> columns df.
Proof.
  intros Hnd. unfold validate_frame. rewrite columns_foldl_convert.
  - apply list_fmap_ext. intros i [k s] Hi; simpl.
    apply list_elem_of_lookup_2 in Hi.
    destruct (is_object (k, s)) eqn:Hobj.
    + rewrite decide_True; [done|]. eapply elem_of_object_columns; [done|].
      unfold is_object in Hobj. by apply bool_decide_eq_true in Hobj.
    + rewrite decide_False; [done|]. intros Hin.
      apply object_columns_elem_of in Hin as (s' & Hs' & Hobj').
      rewrite (unique_column _ _ _ _ Hnd Hi Hs') in Hobj.
      unfold is_object in Hobj; simpl in Hobj.
      apply bool_decide_eq_false in Hobj. done.
  - done.
  - eapply sublist_NoDup; [exact Hnd|]. apply object_columns_sublist.
  - intros x Hx. eapply elem_of_sublist; [|apply object_columns_sublist]. done.
Qed.

Lemma nrows_validate_frame df : nrows (validate_frame env df) = nrows df.
Proof. apply nrows_foldl_convert. Qed.

Lemma labels_validate_frame df : labels (validate_frame env df) = labels df.
Proof. apply labels_foldl_convert. Qed.

Lemma nrows_enrich_frame self t df : nrows (enrich_frame env self t df) = nrows df.
Proof. unfold enrich_frame. by rewrite !nrows_setitem. Qed.

Lemma unique_labels_enrich_frame self t df :
  unique_labels df -> unique_labels (enrich_frame env self t df).
Proof. intros H. unfold enrich_frame. by do 2 apply unique_labels_setitem. Qed.

Lemma nrows_combine_frame df df' :
  combine_frame env df = inr df' -> nrows df' = nrows df.
Proof.
  unfold combine_frame. intros H.
  destruct (take 2 (object_columns df)) as [|c1 [|c2 l]]; simplify_eq; try done.
  destruct (getitem df c1); [done|]. destruct (getitem df c2); [done|].
  simplify_eq. apply nrows_setitem.
Qed.

Lemma getitem_object_column df label :
  unique_labels df -> label ∈ object_columns df ->
  exists s, getitem df label = inr s /\ dtype_of s = object.
Proof.
  intros Hnd Hin. apply object_columns_elem_of in Hin as (s & Hs & Hobj).
  exists s. split; [|done]. by apply getitem_unique.
Qed.

Lemma take_2_cons (l : list string) c1 c2 r :
  take 2 l = c1 :: c2 :: r -> exists r', l = c1 :: c2 :: r'.
Proof.
  destruct l as [|a [|b l']]; simpl; intros H; simplify_eq. by exists l'.
Qed.

(** Step 4 cannot fail on a frame with unique labels. *)
Lemma combine_frame_unique df :
  unique_labels df -> exists df', combine_frame env df = inr df'.
Proof.
  intros Hnd. unfold combine_frame.
  destruct (take 2 (object_columns df)) as [|c1 [|c2 l]] eqn:Ht; eauto.
  apply take_2_cons in Ht as [r Hr].
  destruct (getitem_object_column df c1 Hnd) as (a & -> & _).
  { rewrite Hr. apply list_elem_of_here. }
  destruct (getitem_object_column df c2 Hnd) as (b & -> & _).
  { rewrite Hr. apply list_elem_of_further, list_elem_of_here. }
  eauto.
Qed.

Lemma unique_labels_enriched_frame self t df :
  unique_labels df -> unique_labels (enriched_frame env self t df).
Proof.
  intros H. apply unique_labels_enrich_frame. unfold unique_labels.
  by rewrite labels_validate_frame, labels_dropna.
Qed.

Lemma transform_frame_unique self t df :
  unique_labels df -> exists df', transform_frame env self t df = inr df'.
Proof. intros H. by apply combine_frame_unique, unique_labels_enriched_frame. Qed.

Lemma nrows_enriched_frame self t df :
  nrows (enriched_frame env self t df) = nrows (dropna df).
Proof.
  unfold enriched_frame. by rewrite nrows_enrich_frame, nrows_validate_frame.
Qed.

End StepFacts.

(** ** The steps of [transform], on the state *)

Section RunFacts.

Context {number : Type} (env : @Env number).

Implicit Types (df : DataFrame number) (s : @State number) (r : ref).

Lemma lookup_alloc (h : list (DataFrame number)) df :
  (h ++ [df]) !! length h = Some df.
Proof. by apply list_lookup_middle. Qed.

Lemma insert_alloc (h : list (DataFrame number)) df df' :
  <[length h := df']> (h ++ [df]) = h ++ [df'].
Proof.
  rewrite insert_app_r_alt by done. by rewrite Nat.sub_diag.
Qed.

Lemma set_heap_same s df r :
  heap s !! r = Some df -> set_heap (<[r := df]> (heap s)) s = s.
Proof.
  intros H. destruct s as [h m f d t]; simpl in *.
  unfold set_heap; simpl. by rewrite list_insert_id.
Qed.

Lemma convert_column_run r col s df :
  heap s !! r = Some df ->
  convert_column env r col s
  = (inr tt, set_heap (<[r := convert_frame env df col]> (heap s)) s).
Proof.
  intros H. unfold convert_column, convert_frame, try_except.
  unfold mbind, M_bind, deref, lift, update, raise, mret, M_ret.
  rewrite H. destruct (getitem df col) as [e|c] eqn:Hget; simpl.
  - by rewrite set_heap_same.
  - destruct (to_numeric (parse_number env) c) as [e|v] eqn:Hnum; simpl.
    + by rewrite set_heap_same.
    + rewrite H; simpl. rewrite Hget; simpl. rewrite Hnum; simpl. by rewrite H.
Qed.

Lemma for_each_convert_run r (l : list string) : forall s df,
  heap s !! r = Some df ->
  for_each l (convert_column env r) s
  = (inr tt, set_heap (<[r := foldl (convert_frame env) df l]> (heap s)) s).
Proof.
  induction l as [|col l IH]; intros s df H; simpl.
  - unfold mret, M_ret. by rewrite set_heap_same.
  - unfold mbind, M_bind. rewrite (convert_column_run _ _ _ _ H).
    rewrite (IH _ (convert_frame env df col)).
    + destruct s; unfold set_heap; simpl. by rewrite list_insert_insert_eq.
    + simpl. apply list_lookup_insert_eq. by eapply lookup_lt_Some.
Qed.

Lemma data_validation_run r s df :
  heap s !! r = Some df ->
  data_validation env r s
  = (inr tt, set_heap (<[r := validate_frame env df]> (heap s)) s).
Proof.
  intros H. unfold data_validation, mbind, M_bind, deref. rewrite H.
  by apply for_each_convert_run.
Qed.

Lemma data_enrichment_run self r s df :
  heap s !! r = Some df ->
  data_enrichment env self r s
  = (inr tt,
     set_ticks (S (ticks s))
       (set_heap (<[r := enrich_frame env self (clock env (ticks s)) df]> (heap s)) s)).
Proof.
  intros H. unfold data_enrichment, enrich_frame, mbind, M_bind, now, update; simpl.
  rewrite H; simpl. rewrite list_lookup_insert_eq by (by eapply lookup_lt_Some).
  simpl. destruct s; unfold set_heap, set_ticks; simpl.
  by rewrite list_insert_insert_eq.
Qed.

Lemma additional_transformations_run r s df :
  heap s !! r = Some df ->
  additional_transformations env r s
  = match combine_frame env df with
    | inr df' => (inr tt, set_heap (<[r := df']> (heap s)) s)
    | inl e => (inl e, s)
    end.
Proof.
  intros H. unfold additional_transformations, combine_frame, mbind, M_bind, deref.
  rewrite H; simpl.
  destruct (object_columns df) as [|c1 [|c2 l]]; simpl.
  - unfold mret, M_ret. by rewrite set_heap_same.
  - unfold mret, M_ret. by rewrite set_heap_same.
  - rewrite H; simpl.
    destruct (getitem df c1); [done|]. destruct (getitem df c2); [done|].
    unfold update. by rewrite H.
Qed.

Lemma data_cleaning_run data s df :
  heap s !! data = Some df ->
  data_cleaning data s
  = (inr (length (heap s)),
     mkState (heap s ++ [dropna df]) (counted df (metrics s))
       (files s) (db s) (ticks s)).
Proof.
  intros H. unfold data_cleaning, mbind, M_bind, deref, alloc, modify_metrics.
  rewrite H; simpl. by rewrite lookup_alloc.
Qed.

Lemma transform_run self data s df :
  heap s !! data = Some df ->
  transform env self data s
  = match transform_frame env self (clock env (ticks s)) df with
    | inr out =>
        (inr (length (heap s)),
         mkState (heap s ++ [out])
           (set_rows_processed (len out) (counted df (metrics s)))
           (files s) (db s) (S (ticks s)))
    | inl e =>
        (inl e,
         mkState (heap s ++ [enriched_frame env self (clock env (ticks s)) df])
           (counted df (metrics s)) (files s) (db s) (S (ticks s)))
    end.
Proof.
  intros H. unfold transform, mbind, M_bind.
  rewrite (data_cleaning_run _ _ _ H).
  erewrite data_validation_run by apply lookup_alloc. simpl.
  rewrite insert_alloc.
  erewrite data_enrichment_run by apply lookup_alloc. simpl.
  rewrite insert_alloc.
  erewrite additional_transformations_run by apply lookup_alloc. simpl.
  unfold transform_frame, enriched_frame.
  destruct (combine_frame env _) as [e|out]; simpl; [done|].
  unfold deref; simpl. rewrite insert_alloc, lookup_alloc. done.
Qed.

(** Steps 1 to 3 leave [enriched_frame] in the new frame object. *)
Lemma first_three_steps_run self data s df :
  heap s !! data = Some df ->
  (r ← data_cleaning data;
   data_validation env r ;; data_enrichment env self r ;; mret r) s
  = (inr (length (heap s)),
     mkState (heap s ++ [enriched_frame env self (clock env (ticks s)) df])
       (counted df (metrics s)) (files s) (db s) (S (ticks s))).
Proof.
  intros H. unfold mbind, M_bind.
  rewrite (data_cleaning_run _ _ _ H).
  erewrite data_validation_run by apply lookup_alloc. simpl.
  rewrite insert_alloc.
  erewrite data_enrichment_run by apply lookup_alloc. simpl.
  by rewrite insert_alloc.
Qed.

Lemma transform_returns self data s df :
  heap s !! data = Some df -> unique_labels df ->
  exists out,
    transform_frame env self (clock env (ticks s)) df = inr out /\
    transform env self data s
    = (inr (length (heap s)),
       mkState (heap s ++ [out])
         (set_rows_processed (len out) (counted df (metrics s)))
         (files s) (db s) (S (ticks s))).
Proof.
  intros H Hnd.
  destruct (transform_frame_unique env self (clock env (ticks s)) df Hnd)
    as [out Hout].
  exists out. split; [done|]. rewrite (transform_run _ _ _ _ H). by rewrite Hout.
Qed.

Lemma nrows_transform_frame self t df out :
  transform_frame env self t df = inr out -> nrows out = nrows (dropna df).
Proof.
  unfold transform_frame. intros H. apply nrows_combine_frame in H.
  by rewrite H, nrows_enriched_frame.
Qed.

End RunFacts.

(** ** The frame before and after step 4 *)

Section MetadataFacts.

Context {number : Type} (env : @Env number).

Implicit Types (df : DataFrame number) (s : Series number) (label : string).

Lemma elem_of_setitem_ne df label label' s s' :
  label ≠ label' -> (label', s') ∈ columns df ->
  (label', s') ∈ columns (setitem df label s).
Proof.
  intros Hne Hin. unfold setitem. case_decide; simpl.
  - apply list_elem_of_fmap. exists (label', s'). split; [|done]. simpl.
    by rewrite decide_False.
  - apply elem_of_app. by left.
Qed.

Lemma rectangular_setitem df label s :
  rectangular df -> length (values s) = nrows df ->
  rectangular (setitem df label s).
Proof.
  unfold rectangular, setitem. intros Hr Hs. case_decide; simpl.
  - apply Forall_fmap. eapply Forall_impl; [exact Hr|].
    intros [k v] Hv; simpl in *. by case_decide.
  - apply Forall_app. split; [done|]. by apply Forall_singleton.
Qed.

Lemma rectangular_dropna df : rectangular (dropna df).
Proof.
  unfold rectangular, dropna; simpl. apply Forall_fmap, Forall_forall.
  intros [k v] _; simpl. by rewrite length_map.
Qed.

Lemma length_numeric_form s :
  length (values (numeric_form env s)) = length (values s).
Proof.
  unfold numeric_form, to_numeric.
  destruct (mapM _ (values s)) as [vs|] eqn:Hm; [|done]. simpl.
  symmetry. by eapply length_mapM.
Qed.

Lemma rectangular_validate_frame df :
  unique_labels df -> rectangular df -> rectangular (validate_frame env df).
Proof.
  intros Hnd Hr. unfold rectangular.
  rewrite columns_validate_frame, nrows_validate_frame by done.
  apply Forall_fmap. eapply Forall_impl; [exact Hr|].
  intros [k v] Hv; simpl in *. destruct (is_object (k, v)); simpl; [|done].
  by rewrite length_numeric_form.
Qed.

Lemma rectangular_enrich_frame self t df :
  rectangular df -> rectangular (enrich_frame env self t df).
Proof.
  intros Hr. unfold enrich_frame.
  apply rectangular_setitem; [apply rectangular_setitem|]; try done.
  - simpl. by rewrite length_replicate.
  - simpl. by rewrite length_replicate.
Qed.

Lemma rectangular_enriched_frame self t df :
  unique_labels df -> rectangular (enriched_frame env self t df).
Proof.
  intros Hnd. apply rectangular_enrich_frame, rectangular_validate_frame.
  - unfold unique_labels. by rewrite labels_dropna.
  - apply rectangular_dropna.
Qed.

(** The two metadata columns, as step 3 leaves them. *)
Lemma getitem_enrich_timestamp self t df :
  unique_labels df ->
  getitem (enrich_frame env self t df) "etl_timestamp"
  = inr (broadcast df (isoformat env t)).
Proof.
  intros Hnd. unfold enrich_frame.
  rewrite getitem_setitem_ne by done. by apply getitem_setitem_eq.
Qed.

Lemma getitem_enrich_source self t df :
  unique_labels df ->
  getitem (enrich_frame env self t df) "source_file"
  = inr (mkSeries object
           (replicate (nrows df) (Str (basename (source_path self))))).
Proof.
  intros Hnd. unfold enrich_frame.
  rewrite getitem_setitem_eq by (by apply unique_labels_setitem).
  unfold broadcast. by rewrite nrows_setitem.
Qed.

Lemma getitem_enrich_other self t df label :
  label ≠ "etl_timestamp" -> label ≠ "source_file" ->
  getitem (enrich_frame env self t df) label = getitem df label.
Proof.
  intros H1 H2. unfold enrich_frame. by rewrite !getitem_setitem_ne.
Qed.

Lemma two_elements (l : list string) x y :
  x ∈ l -> y ∈ l -> x ≠ y -> exists a b r, l = a :: b :: r.
Proof.
  intros Hx Hy Hne. destruct l as [|a [|b r]]; [| |by eauto].
  - by apply elem_of_nil in Hx.
  - apply list_elem_of_singleton in Hx, Hy. congruence.
Qed.

(** After step 3 at least two columns are of dtype object: the two
    metadata columns are. *)
Lemma object_columns_enrich_frame self t df :
  unique_labels df ->
  exists c1 c2 r, object_columns (enrich_frame env self t df) = c1 :: c2 :: r.
Proof.
  intros Hnd. apply (two_elements _ "etl_timestamp" "source_file"); [| |done].
  - eapply elem_of_object_columns.
    + eapply getitem_elem_of, getitem_enrich_timestamp, Hnd.
    + reflexivity.
  - eapply elem_of_object_columns.
    + eapply getitem_elem_of, getitem_enrich_source, Hnd.
    + reflexivity.
Qed.

(** Step 4 on a frame with unique labels and two columns of dtype
    object. *)
Lemma combine_frame_two df c1 c2 r :
  unique_labels df -> object_columns df = c1 :: c2 :: r ->
  exists a b,
    getitem df c1 = inr a /\ dtype_of a = object /\
    getitem df c2 = inr b /\ dtype_of b = object /\
    combine_frame env df
    = inr (setitem df "combined_field"
             (join_text (astype_str (number_str env) a)
                        (astype_str (number_str env) b))).
Proof.
  intros Hnd Hobj.
  destruct (getitem_object_column df c1 Hnd) as (a & Ha & Hoa).
  { rewrite Hobj. apply list_elem_of_here. }
  destruct (getitem_object_column df c2 Hnd) as (b & Hb & Hob).
  { rewrite Hobj. apply list_elem_of_further, list_elem_of_here. }
  exists a, b. split_and!; try done.
  unfold combine_frame. rewrite Hobj. simpl. by rewrite Ha, Hb.
Qed.

Lemma combine_frame_getitem_ne df df' label :
  combine_frame env df = inr df' -> label ≠ "combined_field" ->
  getitem df' label = getitem df label.
Proof.
  unfold combine_frame. intros H Hne.
  destruct (take 2 (object_columns df)) as [|c1 [|c2 l]]; simplify_eq; try done.
  destruct (getitem df c1); [done|]. destruct (getitem df c2); [done|].
  simplify_eq. by apply getitem_setitem_ne.
Qed.

(** The metadata columns of the frame that [transform] returns. *)
Lemma transform_frame_metadata self t df out :
  unique_labels df -> transform_frame env self t df = inr out ->
  getitem out "etl_timestamp"
  = inr (mkSeries object (replicate (nrows out) (Str (isoformat env t)))) /\
  getitem out "source_file"
  = inr (mkSeries object
           (replicate (nrows out) (Str (basename (source_path self))))).
Proof.
  intros Hnd Hout. pose proof (nrows_transform_frame env _ _ _ _ Hout) as Hn.
  unfold transform_frame in Hout.
  assert (unique_labels (validate_frame env (dropna df))) as Hv.
  { unfold unique_labels. by rewrite labels_validate_frame, labels_dropna. }
  rewrite !(combine_frame_getitem_ne _ _ _ Hout) by done.
  unfold enriched_frame.
  rewrite getitem_enrich_timestamp, getitem_enrich_source by done.
  unfold broadcast. by rewrite nrows_validate_frame, Hn.
Qed.

End MetadataFacts.

(** ** [transform]: rows, counts and the store *)

Section RowsAndStore.

Context {number : Type} (env : @Env number).

Implicit Types (df : DataFrame number) (s : @State number) (r : ref).

(** C1. After one run of [transform] on metrics whose filtered count is
    still zero, [rows_processed] is the number of rows left by step 1,
    [rows_filtered] the number of rows dropped, and the two add up to the
    number of rows of the input frame (labels unique, as in every frame
    that [extract] builds). *)
Theorem rows_processed_plus_filtered self data s df :
  heap s !! data = Some df ->
  unique_labels df ->
  rows_filtered (metrics s) = 0 ->
  exists out s',
    transform env self data s = (inr out, s') /\
    rows_processed (metrics s') = len (dropna df) /\
    rows_filtered (metrics s') = len df - len (dropna df) /\
    rows_processed (metrics s') + rows_filtered (metrics s') = len df.
Proof.
  intros H Hnd Hzero.
  destruct (transform_returns env self data s df H Hnd) as (out & Hout & Hrun).
  eexists _, _. split; [exact Hrun|]. simpl.
  apply nrows_transform_frame in Hout. unfold len. rewrite Hout, Hzero. lia.
Qed.

Lemma map_lookup_seq {A B} (f : A -> B) (d : A) (l : list A) :
  map (fun j => f (default d (l !! j))) (seq 0 (length l)) = map f l.
Proof.
  induction l as [|x l IH] using rev_ind; [done|].
  rewrite length_app; simpl. rewrite Nat.add_1_r, seq_S, !map_app; simpl.
  rewrite list_lookup_middle by done. simpl. f_equal.
  rewrite <- IH. apply map_ext_in. intros j Hj. apply in_seq in Hj.
  by rewrite lookup_app_l by lia.
Qed.

Lemma filter_map {A B} (f : A -> B) (P : B -> Prop) `{!forall y, Decision (P y)}
    (l : list A) :
  filter P (map f l) = map f (filter (fun x => P (f x)) l).
Proof.
  induction l as [|x l IH]; [done|]. simpl. rewrite !filter_cons.
  destruct (decide (P (f x))); simpl; by rewrite IH.
Qed.

Lemma row_at_dropna df j :
  (j < length (notna_positions df))%nat ->
  row_at (dropna df) j = row_at df (default 0%nat (notna_positions df !! j)).
Proof.
  intros Hj. unfold row_at, dropna; simpl. rewrite map_map.
  apply map_ext. intros [k c]; simpl. unfold cell at 1; simpl.
  rewrite list_lookup_fmap.
  destruct (lookup_lt_is_Some_2 _ _ Hj) as [i Hi]. by rewrite Hi.
Qed.

Lemma row_complete_has_null df i :
  row_complete df i = true <-> has_null (row_at df i) = false.
Proof.
  unfold row_complete, has_null. generalize (row_at df i). intros row.
  induction row as [|v row IH]; simpl; [done|].
  destruct (isna v); simpl; [done|]. exact IH.
Qed.

(** The rows of the cleaned frame are the rows of the frame without a
    missing value, in their order. *)
Lemma rows_dropna df :
  rows (dropna df) = filter (fun row => has_null row = false) (rows df).
Proof.
  unfold rows at 1. transitivity (map (row_at df) (notna_positions df)).
  - change (nrows (dropna df)) with (length (notna_positions df)).
    rewrite <- (map_lookup_seq (row_at df) 0%nat).
    apply map_ext_in. intros j Hj. apply in_seq in Hj.
    apply row_at_dropna. lia.
  - unfold rows, notna_positions.
    rewrite filter_map. f_equal. apply list_filter_iff.
    intros i. apply row_complete_has_null.
Qed.

Lemma length_rows df : length (rows df) = nrows df.
Proof. unfold rows. by rewrite length_map, length_seq. Qed.

(** C5. Step 1 puts into a new frame exactly the rows of the input that
    have no missing value, in their original order, under the same labels,
    and adds the number of rows left out to [rows_filtered]. *)
Theorem data_cleaning_drops_rows_with_null data s df :
  heap s !! data = Some df ->
  exists out s' cleaned,
    data_cleaning data s = (inr out, s') /\
    heap s' !! out = Some cleaned /\
    labels cleaned = labels df /\
    rows cleaned = filter (fun row => has_null row = false) (rows df) /\
    rows_filtered (metrics s')
    = rows_filtered (metrics s)
      + (Z.of_nat (length (rows df)) - Z.of_nat (length (rows cleaned))).
Proof.
  intros H. eexists _, _, (dropna df).
  split; [by apply data_cleaning_run|]. simpl.
  split; [apply lookup_alloc|]. split; [apply labels_dropna|].
  split; [apply rows_dropna|]. by rewrite !length_rows.
Qed.

(** C10. [transform] leaves the frame it is given as it was, whatever the
    outcome: every frame object that existed keeps its content, and the
    frame returned is a new object. *)
Theorem transform_keeps_input self data s df :
  heap s !! data = Some df ->
  heap (transform env self data s).2 !! data = Some df /\
  (forall r, (r < length (heap s))%nat ->
     heap (transform env self data s).2 !! r = heap s !! r) /\
  (forall out, (transform env self data s).1 = inr out ->
     out <> data /\ (length (heap s) <= out)%nat /\
     is_Some (heap (transform env self data s).2 !! out)).
Proof.
  intros H. rewrite (transform_run _ _ _ _ _ H).
  pose proof (lookup_lt_Some _ _ _ H) as Hlt.
  destruct (transform_frame env self _ df) as [e|res]; simpl.
  - split; [by rewrite lookup_app_l|].
    split; [intros r Hr; by rewrite lookup_app_l|]. intros out Hout. done.
  - split; [by rewrite lookup_app_l|].
    split; [intros r Hr; by rewrite lookup_app_l|]. intros out Hout.
    simplify_eq. split; [lia|]. split; [done|]. rewrite lookup_alloc. eauto.
Qed.

End RowsAndStore.

Lemma rows_processed_plus_filtered_witness :
  exists out s',
    transform sample_env sample_pipeline 0%nat (state_with people) = (inr out, s') /\
    rows_processed (metrics s') = 2 /\
    rows_filtered (metrics s') = 1 /\
    rows_processed (metrics s') + rows_filtered (metrics s') = 3.
Proof.
  apply (rows_processed_plus_filtered sample_env sample_pipeline 0%nat
           (state_with people) people).
  - reflexivity.
  - by_computation.
  - reflexivity.
Defined.

Lemma data_cleaning_drops_rows_with_null_witness :
  exists out s' cleaned,
    data_cleaning 0%nat (state_with people) = (inr out, s') /\
    heap s' !! out = Some cleaned /\
    labels cleaned = labels people /\
    rows cleaned = filter (fun row => has_null row = false) (rows people) /\
    rows_filtered (metrics s')
    = rows_filtered (metrics (state_with people))
      + (Z.of_nat (length (rows people)) - Z.of_nat (length (rows cleaned))).
Proof.
  apply (data_cleaning_drops_rows_with_null 0%nat (state_with people) people).
  reflexivity.
Defined.

Lemma transform_keeps_input_witness :
  heap (transform sample_env sample_pipeline 0%nat (state_with people)).2 !! 0%nat
  = Some people.
Proof.
  refine (proj1 (transform_keeps_input sample_env sample_pipeline 0%nat
                   (state_with people) people _)).
  reflexivity.
Defined.

(** ** [transform]: column types and metadata *)

Section TypesAndMetadata.

Context {number : Type} (env : @Env number).

Implicit Types (df : DataFrame number) (s : @State number) (r : ref).







(** C6. The frame that [transform] returns has the columns
    [etl_timestamp] and [source_file]; each holds one text on every row:
    the clock reading of the call, and the base name of the source path. *)
Theorem transform_adds_metadata self data s df :
  heap s !! data = Some df ->
  unique_labels df ->
  exists out s' df',
    transform env self data s = (inr out, s') /\
    heap s' !! out = Some df' /\
    getitem df' "etl_timestamp"
    = inr (mkSeries object
             (replicate (nrows df') (Str (isoformat env (clock env (ticks s)))))) /\
    getitem df' "source_file"
    = inr (mkSeries object
             (replicate (nrows df') (Str (basename (source_path self))))).
Proof.
  intros H Hnd.
  destruct (transform_returns env self data s df H Hnd) as (out & Hout & Hrun).
  eexists _, _, out. split; [exact Hrun|]. simpl.
  split; [apply lookup_alloc|]. by eapply transform_frame_metadata.
Qed.

(** C9. On a frame without rows [transform] raises nothing and returns a
    frame without rows that has the two metadata columns. *)
Theorem transform_empty_frame self data s df :
  heap s !! data = Some df ->
  unique_labels df ->
  nrows df = 0%nat ->
  exists out s' df',
    transform env self data s = (inr out, s') /\
    heap s' !! out = Some df' /\
    nrows df' = 0%nat /\
    rows df' = [] /\
    getitem df' "etl_timestamp" = inr (mkSeries object []) /\
    getitem df' "source_file" = inr (mkSeries object []).
Proof.
  intros H Hnd Hzero.
  destruct (transform_returns env self data s df H Hnd) as (out & Hout & Hrun).
  eexists _, _, out. split; [exact Hrun|]. simpl.
  split; [apply lookup_alloc|].
  assert (nrows out = 0%nat) as Hn.
  { rewrite (nrows_transform_frame env _ _ _ _ Hout).
    pose proof (nrows_dropna_le df). lia. }
  destruct (transform_frame_metadata env self _ df out Hnd Hout) as [Ht Hs].
  rewrite Hn in Ht, Hs. split; [done|]. split; [|done].
  unfold rows. by rewrite Hn.
Qed.

End TypesAndMetadata.



Lemma transform_adds_metadata_witness :
  exists out s' df',
    transform sample_env sample_pipeline 0%nat (state_with people) = (inr out, s') /\
    heap s' !! out = Some df' /\
    getitem df' "etl_timestamp"
    = inr (mkSeries object (replicate (nrows df') (Str "0"))) /\
    getitem df' "source_file"
    = inr (mkSeries object (replicate (nrows df') (Str "people.csv"))).
Proof.
  apply (transform_adds_metadata sample_env sample_pipeline 0%nat
           (state_with people) people).
  - reflexivity.
  - by_computation.
Defined.

Lemma transform_empty_frame_witness :
  exists out s' df',
    transform sample_env sample_pipeline 0%nat (state_with no_rows) = (inr out, s') /\
    heap s' !! out = Some df' /\
    nrows df' = 0%nat /\
    rows df' = [] /\
    getitem df' "etl_timestamp" = inr (mkSeries object []) /\
    getitem df' "source_file" = inr (mkSeries object []).
Proof.
  apply (transform_empty_frame sample_env sample_pipeline 0%nat
           (state_with no_rows) no_rows).
  - reflexivity.
  - by_computation.
  - reflexivity.
Defined.

(** ** [transform]: column order and the derived column *)

Section ColumnsAndDerivedField.

Context {number : Type} (env : @Env number).

Implicit Types (df : DataFrame number) (s : @State number) (r : ref).

Lemma labels_setitem df label (c : Series number) :
  labels (setitem df label c)
  = labels df ++ filter (fun l => l ∉ labels df) [label].
Proof.
  destruct (decide (label ∈ labels df)) as [Hin|Hin].
  - rewrite labels_setitem_old by done.
    rewrite filter_cons_False by (by intros ?). by rewrite filter_nil, app_nil_r.
  - rewrite labels_setitem_new by done. by rewrite filter_cons_True.
Qed.

Lemma filter_absent_app (l m k : list string) :
  (forall y, y ∈ k -> y ∉ m) ->
  filter (fun y => y ∉ l ++ m) k = filter (fun y => y ∉ l) k.
Proof.
  induction k as [|y k IH]; intros Hk; [done|].
  rewrite !filter_cons, IH.
  - assert (y ∉ m) as Hy by (apply Hk, list_elem_of_here).
    destruct (decide (y ∉ l)) as [Hl|Hl].
    + rewrite decide_True; [done|]. by rewrite not_elem_of_app.
    + rewrite decide_False; [done|]. rewrite not_elem_of_app. tauto.
  - intros z Hz. by apply Hk, list_elem_of_further.
Qed.

Lemma filter_singleton_absent (l k : list string) (x : string) :
  x ∉ k -> forall y, y ∈ k -> y ∉ filter (fun z => z ∉ l) [x].
Proof.
  intros Hx y Hy Hin. apply list_elem_of_filter in Hin as [_ Hin].
  apply list_elem_of_singleton in Hin. by subst.
Qed.

Lemma labels_setitem_three df (c1 c2 c3 : Series number) :
  labels (setitem (setitem (setitem df "etl_timestamp" c1) "source_file" c2)
            "combined_field" c3)
  = labels df
    ++ filter (fun l => l ∉ labels df)
         ["etl_timestamp"; "source_file"; "combined_field"].
Proof.
  rewrite (labels_setitem _ "combined_field").
  rewrite (labels_setitem _ "source_file").
  rewrite (labels_setitem _ "etl_timestamp").
  set (L := labels df). set (F1 := filter (fun l => l ∉ L) ["etl_timestamp"]).
  set (F2 := filter (fun l => l ∉ L ++ F1) ["source_file"]).
  rewrite (filter_absent_app (L ++ F1) F2 ["combined_field"]).
  2:{ apply filter_singleton_absent. by intros ?%list_elem_of_singleton. }
  rewrite (filter_absent_app L F1 ["combined_field"]).
  2:{ apply filter_singleton_absent. by intros ?%list_elem_of_singleton. }
  unfold F2. rewrite (filter_absent_app L F1 ["source_file"]).
  2:{ apply filter_singleton_absent. by intros ?%list_elem_of_singleton. }
  unfold F1. rewrite <- !app_assoc. f_equal.
  change ["etl_timestamp"; "source_file"; "combined_field"]
    with (["etl_timestamp"] ++ ["source_file"] ++ ["combined_field"]).
  by rewrite !filter_app.
Qed.

(** What steps 1 to 3 leave of an input column whose label is not one
    of the metadata labels: the cells of the surviving rows, as they were
    or in numeric form. *)
Lemma getitem_enriched_frame self t df label col :
  unique_labels df -> (label, col) ∈ columns df ->
  label <> "etl_timestamp" -> label <> "source_file" ->
  exists col',
    getitem (enriched_frame env self t df) label = inr col' /\
    (values col' = map (cell col) (notna_positions df) \/
     mapM (to_numeric_scalar (parse_number env))
       (map (cell col) (notna_positions df)) = Some (values col')).
Proof.
  intros Hnd Hin H1 H2. unfold enriched_frame.
  rewrite getitem_enrich_other by done.
  assert (unique_labels (dropna df)) as Hd.
  { unfold unique_labels. by rewrite labels_dropna. }
  assert ((label, take_positions (notna_positions df) col) ∈ columns (dropna df))
    as Hc.
  { unfold dropna; simpl. apply list_elem_of_fmap. by exists (label, col). }
  set (kept := take_positions (notna_positions df) col) in *.
  exists (if is_object (label, kept) then numeric_form env kept else kept).
  split.
  - apply getitem_unique.
    + unfold unique_labels. by rewrite labels_validate_frame.
    + rewrite columns_validate_frame by done. apply list_elem_of_fmap.
      exists (label, kept). split; [|done]. by destruct (is_object _).
  - destruct (is_object _); [|by left].
    unfold numeric_form, to_numeric.
    destruct (mapM _ (values kept)) as [vs|] eqn:Hvs; [by right|by left].
Qed.

(** C8. The labels of the frame that [transform] returns are the labels
    of the input, in their order, followed by those of the three labels
    [etl_timestamp], [source_file], [combined_field] that the input does
    not bear.  Its rows are those of the positions kept by step 1, which
    stay in increasing order; under every input label other than these
    three the column holds the cells of the kept positions, as they were or
    in numeric form. *)
Theorem transform_keeps_columns_and_order self data s df :
  heap s !! data = Some df ->
  unique_labels df ->
  exists out s' df',
    transform env self data s = (inr out, s') /\
    heap s' !! out = Some df' /\
    labels df'
    = labels df
      ++ filter (fun l => l ∉ labels df)
           ["etl_timestamp"; "source_file"; "combined_field"] /\
    notna_positions df `sublist_of` seq 0 (nrows df) /\
    nrows df' = length (notna_positions df) /\
    forall label col,
      (label, col) ∈ columns df ->
      label ∉ ["etl_timestamp"; "source_file"; "combined_field"] ->
      exists col',
        getitem df' label = inr col' /\
        (values col' = map (cell col) (notna_positions df) \/
         mapM (to_numeric_scalar (parse_number env))
           (map (cell col) (notna_positions df)) = Some (values col')).
Proof.
  intros H Hnd.
  destruct (transform_returns env self data s df H Hnd) as (out & Hout & Hrun).
  eexists _, _, out. split; [exact Hrun|]. simpl.
  split; [apply lookup_alloc|].
  pose proof (nrows_transform_frame env _ _ _ _ Hout) as Hn.
  set (t := clock env (ticks s)) in *. unfold transform_frame in Hout.
  pose proof (unique_labels_enriched_frame env self t df Hnd) as He.
  assert (unique_labels (validate_frame env (dropna df))) as Hv.
  { unfold unique_labels. by rewrite labels_validate_frame, labels_dropna. }
  destruct (object_columns_enrich_frame env self t _ Hv) as (c1 & c2 & rest & Hobj).
  destruct (combine_frame_two env _ c1 c2 rest He Hobj)
    as (a & b & _ & _ & _ & _ & Hcomb).
  split.
  { rewrite Hcomb in Hout. simplify_eq. unfold enriched_frame, enrich_frame.
    rewrite labels_setitem_three.
    by rewrite labels_validate_frame, labels_dropna. }
  split; [apply sublist_filter|]. split; [done|].
  intros label col Hin Hlabel.
  rewrite !not_elem_of_cons in Hlabel. destruct Hlabel as (H1 & H2 & H3 & _).
  rewrite (combine_frame_getitem_ne env _ _ _ Hout) by done.
  by apply getitem_enriched_frame.
Qed.

(** C3, as the code has it. [transform] always sets [combined_field]:
    after step 3 at least two columns are of dtype object, since the two
    metadata columns are.  On every row it holds the texts of the first
    two columns of dtype object of the frame left by steps 1 to 3
    ([enriched_frame]), joined by [" - "]; the other columns are those of
    that frame.  The label is
    appended unless the input bears it already; when the input bears
    neither metadata label, the columns of dtype object after step 3 are
    those after step 2 followed by the two metadata columns. *)
Theorem combined_field_first_two_object_columns self data s df :
  heap s !! data = Some df ->
  unique_labels df ->
  exists out s' df' c1 c2 rest a b col,
    transform env self data s = (inr out, s') /\
    heap s' !! out = Some df' /\
    (exists s3,
       (r ← data_cleaning data;
        data_validation env r ;; data_enrichment env self r ;; mret r) s
       = (inr out, s3) /\
       heap s3 !! out
       = Some (enriched_frame env self (clock env (ticks s)) df)) /\
    object_columns (enriched_frame env self (clock env (ticks s)) df)
    = c1 :: c2 :: rest /\
    getitem (enriched_frame env self (clock env (ticks s)) df) c1 = inr a /\
    getitem (enriched_frame env self (clock env (ticks s)) df) c2 = inr b /\
    getitem df' "combined_field" = inr col /\
    dtype_of col = object /\
    length (values col) = nrows df' /\
    (forall i, (i < nrows df')%nat ->
       values col !! i
       = Some (Str ((str (number_str env) (cell a i) +:+ " - ")
                      +:+ str (number_str env) (cell b i)))) /\
    (forall label, label <> "combined_field" ->
       getitem df' label
       = getitem (enriched_frame env self (clock env (ticks s)) df) label) /\
    ("combined_field" ∉ labels df ->
       labels df'
       = labels (enriched_frame env self (clock env (ticks s)) df)
         ++ ["combined_field"]) /\
    ("etl_timestamp" ∉ labels df -> "source_file" ∉ labels df ->
       object_columns (enriched_frame env self (clock env (ticks s)) df)
       = object_columns (validate_frame env (dropna df))
         ++ ["etl_timestamp"; "source_file"]).
Proof.
  intros H Hnd.
  destruct (transform_returns env self data s df H Hnd) as (out & Hout & Hrun).
  pose proof (nrows_transform_frame env _ _ _ _ Hout) as Hn.
  set (t := clock env (ticks s)) in *. unfold transform_frame in Hout.
  pose proof (unique_labels_enriched_frame env self t df Hnd) as He.
  pose proof (rectangular_enriched_frame env self t df Hnd) as Hrect.
  pose proof (nrows_enriched_frame env self t df) as Hne.
  assert (unique_labels (validate_frame env (dropna df))) as Hv.
  { unfold unique_labels. by rewrite labels_validate_frame, labels_dropna. }
  destruct (object_columns_enrich_frame env self t _ Hv) as (c1 & c2 & rest & Hobj).
  destruct (combine_frame_two env _ c1 c2 rest He Hobj)
    as (a & b & Ha & _ & Hb & _ & Hcomb).
  rewrite Hcomb in Hout. simplify_eq.
  set (e := enriched_frame env self t df) in *.
  assert (length (values a) = nrows e) as Hla.
  { apply getitem_elem_of in Ha. unfold rectangular in Hrect.
    rewrite Forall_forall in Hrect. by apply (Hrect (c1, a)). }
  assert (length (values b) = nrows e) as Hlb.
  { apply getitem_elem_of in Hb. unfold rectangular in Hrect.
    rewrite Forall_forall in Hrect. by apply (Hrect (c2, b)). }
  eexists _, _, _, c1, c2, rest, a, b, _.
  split; [exact Hrun|]. simpl. split; [apply lookup_alloc|].
  split.
  { eexists. split; [by apply first_three_steps_run|]. apply lookup_alloc. }
  split; [exact Hobj|]. split; [exact Ha|]. split; [exact Hb|].
  split; [by apply getitem_setitem_eq|]. split; [done|].
  rewrite nrows_setitem. split.
  { simpl. unfold astype_str. rewrite length_zip_with, !length_map. lia. }
  split.
  { intros i Hi. simpl. unfold astype_str.
    rewrite lookup_zip_with, !list_lookup_fmap. unfold cell.
    destruct (lookup_lt_is_Some_2 (values a) i) as [x ->]; [lia|].
    destruct (lookup_lt_is_Some_2 (values b) i) as [y ->]; [lia|]. done. }
  split; [intros label Hl; by apply getitem_setitem_ne|].
  split.
  { intros Hcf. apply labels_setitem_new. unfold e, enriched_frame, enrich_frame.
    rewrite !labels_setitem, labels_validate_frame, labels_dropna.
    rewrite !not_elem_of_app. split_and!; [done| |].
    - intros Hin. apply list_elem_of_filter in Hin as [_ Hin].
      by apply list_elem_of_singleton in Hin.
    - intros Hin. apply list_elem_of_filter in Hin as [_ Hin].
      by apply list_elem_of_singleton in Hin. }
  intros Hts Hsf. unfold e, enriched_frame, enrich_frame, setitem at 1.
  rewrite decide_False.
  2:{ rewrite labels_setitem_new, labels_validate_frame, labels_dropna,
        not_elem_of_app by (by rewrite labels_validate_frame, labels_dropna).
      split; [done|]. by intros ?%list_elem_of_singleton. }
  unfold setitem.
  rewrite decide_False by (by rewrite labels_validate_frame, labels_dropna).
  unfold object_columns; simpl. rewrite !filter_app, !fmap_app.
  by rewrite <- app_assoc.
Qed.

End ColumnsAndDerivedField.

(** [transform] on the sample frames, evaluated. *)
Example transform_people :
  (transform sample_env sample_pipeline 0%nat (state_with people)).1 = inr 1%nat /\
  heap (transform sample_env sample_pipeline 0%nat (state_with people)).2 !! 1%nat
  = Some (mkFrame 2
            [("id", mkSeries numeric [Num 1; Num 2]);
             ("name", mkSeries object [Str "ann"; Str "bob"]);
             ("age", mkSeries numeric [Num 31; Num 40]);
             ("etl_timestamp", mkSeries object [Str "0"; Str "0"]);
             ("source_file", mkSeries object [Str "people.csv"; Str "people.csv"]);
             ("combined_field", mkSeries object [Str "ann - 0"; Str "bob - 0"])]).
Proof. split; vm_compute; reflexivity. Qed.

Example transform_ids :
  heap (transform sample_env sample_pipeline 0%nat (state_with ids)).2 !! 1%nat
  = Some (mkFrame 1
            [("id", mkSeries numeric [Num 7]);
             ("etl_timestamp", mkSeries object [Str "0"]);
             ("source_file", mkSeries object [Str "people.csv"]);
             ("combined_field", mkSeries object [Str "0 - people.csv"])]).
Proof. vm_compute; reflexivity. Qed.

Lemma transform_keeps_columns_and_order_witness :
  exists out s' df',
    transform sample_env sample_pipeline 0%nat (state_with people) = (inr out, s') /\
    heap s' !! out = Some df' /\
    labels df' = ["id"; "name"; "age"; "etl_timestamp"; "source_file"; "combined_field"] /\
    nrows df' = 2%nat.
Proof.
  destruct (transform_keeps_columns_and_order sample_env sample_pipeline 0%nat
              (state_with people) people) as (out & s' & df' & Hrun & Hout & Hl & _ & Hn & _).
  - reflexivity.
  - by_computation.
  - exists out, s', df'. split; [exact Hrun|]. split; [exact Hout|].
    split; [exact Hl|exact Hn].
Defined.

Lemma combined_field_first_two_object_columns_witness :
  exists out s' df' col,
    transform sample_env sample_pipeline 0%nat (state_with ids) = (inr out, s') /\
    heap s' !! out = Some df' /\
    getitem df' "combined_field" = inr col /\
    length (values col) = nrows df'.
Proof.
  destruct (combined_field_first_two_object_columns sample_env sample_pipeline
              0%nat (state_with ids) ids)
    as (out & s' & df' & c1 & c2 & rest & a & b & col
        & Hrun & Hout & _ & _ & _ & _ & Hcol & _ & Hlen & _).
  - reflexivity.
  - by_computation.
  - exists out, s', df', col. split; [exact Hrun|]. split; [exact Hout|].
    split; [exact Hcol|exact Hlen].
Defined.

(** C3, as the specification has it, fails on a frame with one numeric
    column: no column is of dtype object after step 2, and the frame
    returned bears [combined_field]. *)
Lemma combined_field_as_specified_fails :
  ~ combined_field_as_specified sample_env sample_pipeline 0%nat
      (state_with ids) ids.
Proof.
  intros Hc. unfold combined_field_as_specified in Hc.
  edestruct Hc as [Hc1 _]; [vm_compute; reflexivity|vm_compute; reflexivity|].
  assert ("combined_field"
          ∈ ["id"; "etl_timestamp"; "source_file"; "combined_field"]) as Hin.
  { by_computation. }
  apply Hc1 in Hin. vm_compute in Hin. lia.
Qed.

(** ** [run] *)

Section RunProperties.

Context {number : Type} (env : @Env number).

Implicit Types (df : DataFrame number) (s : @State number) (r : ref).

Lemma outspoken_ret {A} (x : A) : outspoken (number := number) (mret x).
Proof. by intros s e s' H. Qed.

Lemma outspoken_bind {A B} (m : M A) (k : A -> M B) :
  outspoken (number := number) m -> (forall x, outspoken (k x)) ->
  outspoken (m ≫= k).
Proof.
  intros Hm Hk s e s' H. unfold mbind, M_bind in H.
  destruct (m s) as [[e1|x] s1] eqn:Hms.
  - simplify_eq. by eapply Hm.
  - by eapply Hk.
Qed.

Lemma outspoken_raise {A} e :
  exc_msg e <> "" -> outspoken (number := number) (raise (A := A) e).
Proof. intros He s e' s' H. unfold raise in H. by simplify_eq. Qed.

Lemma outspoken_reraise {A} (m : M A) :
  outspoken (number := number) m -> outspoken (try_except m (fun e => raise e)).
Proof.
  intros Hm s e s' H. unfold try_except in H.
  destruct (m s) as [[e1|x] s1] eqn:Hms; [|done].
  unfold raise in H. simplify_eq. by eapply Hm.
Qed.

Lemma outspoken_deref r : outspoken (number := number) (deref r).
Proof.
  intros s e s' H. unfold deref in H.
  destruct (heap s !! r); by simplify_eq.
Qed.

Lemma outspoken_transform self data : outspoken (transform env self data).
Proof.
  intros s e s' H. destruct (heap s !! data) as [df|] eqn:Hd.
  - rewrite (transform_run env _ _ _ _ Hd) in H.
    unfold transform_frame, combine_frame in H.
    destruct (take 2 _) as [|c1 [|c2 l]]; simplify_eq.
    destruct (getitem _ c1); [by simplify_eq|].
    destruct (getitem _ c2); by simplify_eq.
  - unfold transform, data_cleaning, mbind, M_bind, deref in H.
    rewrite Hd in H. by simplify_eq.
Qed.

Lemma outspoken_extract self :
  env_messages_nonempty env -> outspoken (extract env self).
Proof.
  intros (Hread & _). unfold extract. apply outspoken_reraise.
  apply outspoken_bind; [by intros s e s' H|]. intros fs.
  destruct (fs !! source_path self) as [text|].
  - apply outspoken_bind; [|by intros df s e s' H].
    intros s e s' H. destruct (read_csv env text) as [e1|df] eqn:Hr; [|done].
    unfold lift, raise in H. simplify_eq. by eapply Hread.
  - by apply outspoken_raise.
Qed.

Lemma outspoken_load_to_csv self data :
  env_messages_nonempty env -> outspoken (load_to_csv env self data).
Proof.
  intros (_ & Hopen & _). unfold load_to_csv. apply outspoken_reraise.
  apply outspoken_bind; [apply outspoken_deref|]. intros df.
  destruct (open_error env (target_path self)) as [e1|] eqn:Ho.
  - apply outspoken_raise. by eapply Hopen.
  - by intros s e s' H.
Qed.

(** The count of the rows of a table with a bare name succeeds. *)
Lemma count_error_bare tables name :
  bare_name name = true -> count_error env tables name = None.
Proof. intros H. unfold count_error. by rewrite H. Qed.

Lemma outspoken_load_to_db self data :
  env_messages_nonempty env ->
  outspoken (load_to_db env self data "processed_data").
Proof.
  intros (_ & _ & Hconn & Hsql & _). unfold load_to_db. apply outspoken_reraise.
  apply outspoken_bind; [apply outspoken_deref|]. intros df.
  destruct (connect_error env (db_path self)) as [e1|] eqn:Hc.
  - apply outspoken_raise. by eapply Hconn.
  - destruct (to_sql_error env "processed_data" df) as [e1|] eqn:Ht.
    + apply outspoken_raise. by eapply Hsql.
    + intros s e s' H. by rewrite count_error_bare in H.
Qed.

Lemma outspoken_fromisoformat text :
  env_messages_nonempty env ->
  outspoken (number := number) (lift (fromisoformat env text)).
Proof.
  intros (_ & _ & _ & _ & Hiso) s e s' H.
  destruct (fromisoformat env text) as [e1|t] eqn:Hf; [|done].
  unfold lift, raise in H. simplify_eq. by eapply Hiso.
Qed.

Lemma outspoken_run_stages self :
  env_messages_nonempty env -> outspoken (run_stages env self).
Proof.
  intros Henv. unfold run_stages.
  apply outspoken_bind; [by apply outspoken_extract|]. intros data.
  apply outspoken_bind; [apply outspoken_transform|]. intros t.
  apply outspoken_bind; [by apply outspoken_load_to_csv|]. intros _.
  apply outspoken_bind; [by apply outspoken_load_to_db|]. intros _.
  apply outspoken_bind; [by intros s e s' H|]. intros t1.
  apply outspoken_bind; [by intros s e s' H|]. intros _.
  apply outspoken_bind; [by intros s e s' H|]. intros m.
  apply outspoken_bind; [by apply outspoken_fromisoformat|]. intros start.
  apply outspoken_bind; [by intros s e s' H|]. intros m'.
  apply outspoken_bind; [by apply outspoken_fromisoformat|]. intros finish.
  apply outspoken_bind; [by intros s e s' H|]. intros _.
  by intros s e s' H.
Qed.

Lemma keeps_outputs_extract self : keeps_outputs (extract env self).
Proof.
  intros s r s' H. unfold extract, try_except, mbind, M_bind, get_files in H.
  destruct (files s !! source_path self) as [text|].
  - destruct (read_csv env text) as [e|df]; unfold lift, raise, alloc in H;
      simpl in H; by simplify_eq.
  - unfold raise in H. by simplify_eq.
Qed.

Lemma keeps_outputs_transform self data : keeps_outputs (transform env self data).
Proof.
  intros s r s' H. destruct (heap s !! data) as [df|] eqn:Hd.
  - rewrite (transform_run env _ _ _ _ Hd) in H.
    destruct (transform_frame _ _ _ _); by simplify_eq.
  - unfold transform, data_cleaning, mbind, M_bind, deref in H.
    rewrite Hd in H. by simplify_eq.
Qed.

Lemma keeps_db_load_to_csv self data : keeps_db (load_to_csv env self data).
Proof.
  intros s r s' H. unfold load_to_csv, try_except, mbind, M_bind, deref in H.
  destruct (heap s !! data); [|unfold raise in H; by simplify_eq].
  destruct (open_error env _); unfold raise in H; by simplify_eq.
Qed.

(** [run] unfolded: the outcome of the stages decides what it returns. *)
Lemma run_unfold self s :
  run env self s
  = match run_stages env self (started env s) with
    | (inr m, s2) => (inr m, s2)
    | (inl e, s2) =>
        let m := set_error (exc_msg e)
                   (set_status "failed"
                      (set_end_time (isoformat env (clock env (ticks s2)))
                         (metrics s2))) in
        (inr m, set_metrics m (set_ticks (S (ticks s2)) s2))
    end.
Proof.
  unfold run, try_except, mbind, M_bind, now, modify_metrics, get_metrics.
  simpl. fold (started env s).
  destruct (run_stages env self (started env s)) as [[e|m] s2]; [|done].
  by destruct s2.
Qed.

Lemma run_stages_returns_metrics self s m s' :
  run_stages env self s = (inr m, s') -> m = metrics s'.
Proof.
  unfold run_stages, mbind, M_bind. intros H.
  repeat match type of H with
         | (let (_, _) := ?c in _) = _ => destruct c as [[?|?] ?]; simplify_eq
         | match ?c with _ => _ end = _ => destruct c as [[?|?] ?]; simplify_eq
         end.
  unfold get_metrics in H. by simplify_eq.
Qed.

Lemma run_stages_extract_fails self s e s2 :
  extract env self s = (inl e, s2) -> run_stages env self s = (inl e, s2).
Proof. intros H. unfold run_stages, mbind, M_bind. by rewrite H. Qed.

Lemma run_stages_transform_fails self s d s2 e s3 :
  extract env self s = (inr d, s2) ->
  transform env self d s2 = (inl e, s3) ->
  run_stages env self s = (inl e, s3).
Proof.
  intros H1 H2. unfold run_stages, mbind, M_bind at 1. rewrite H1.
  unfold mbind, M_bind at 1. by rewrite H2.
Qed.

Lemma run_stages_load_to_csv_fails self s d s2 t s3 e s4 :
  extract env self s = (inr d, s2) ->
  transform env self d s2 = (inr t, s3) ->
  load_to_csv env self t s3 = (inl e, s4) ->
  run_stages env self s = (inl e, s4).
Proof.
  intros H1 H2 H3. unfold run_stages, mbind, M_bind at 1. rewrite H1.
  unfold mbind, M_bind at 1. rewrite H2.
  unfold mbind, M_bind at 1. by rewrite H3.
Qed.

Lemma run_stages_load_to_db_fails self s d s2 t s3 u s4 e s5 :
  extract env self s = (inr d, s2) ->
  transform env self d s2 = (inr t, s3) ->
  load_to_csv env self t s3 = (inr u, s4) ->
  load_to_db env self t "processed_data" s4 = (inl e, s5) ->
  run_stages env self s = (inl e, s5).
Proof.
  intros H1 H2 H3 H4. unfold run_stages, mbind, M_bind at 1. rewrite H1.
  unfold mbind, M_bind at 1. rewrite H2.
  unfold mbind, M_bind at 1. rewrite H3.
  unfold mbind, M_bind at 1. by rewrite H4.
Qed.

Lemma extract_missing_source self s :
  files s !! source_path self = None ->
  extract env self s = (inl (FileNotFoundError (source_path self)), s).
Proof.
  intros H. unfold extract, try_except, mbind, M_bind, get_files. by rewrite H.
Qed.


(** C4. [run] raises nothing and returns the metrics record.  When a stage
    raises, the record says [status = "failed"], [error] is the text of the
    exception, which is not empty when the exceptions of the environment
    say something, and [end_time] is set.  A failure of [extract] or of
    [transform] leaves files and tables as they were, a failure of
    [load_to_csv] leaves the tables as they were; a source path that does
    not exist is a failure of [extract]. *)
Theorem run_returns_metrics_and_reports_failure self s :
  env_messages_nonempty env ->
  exists m s',
    run env self s = (inr m, s') /\
    m = metrics s' /\
    (forall e s2,
       run_stages env self (started env s) = (inl e, s2) ->
       failed_with e m /\ exc_msg e <> "") /\
    (forall e s2,
       extract env self (started env s) = (inl e, s2) ->
       failed_with e m /\ exc_msg e <> "" /\
       files s' = files s /\ db s' = db s) /\
    (forall d s2 e s3,
       extract env self (started env s) = (inr d, s2) ->
       transform env self d s2 = (inl e, s3) ->
       failed_with e m /\ exc_msg e <> "" /\
       files s' = files s /\ db s' = db s) /\
    (forall d s2 t s3 e s4,
       extract env self (started env s) = (inr d, s2) ->
       transform env self d s2 = (inr t, s3) ->
       load_to_csv env self t s3 = (inl e, s4) ->
       failed_with e m /\ exc_msg e <> "" /\ db s' = db s) /\
    (forall d s2 t s3 u s4 e s5,
       extract env self (started env s) = (inr d, s2) ->
       transform env self d s2 = (inr t, s3) ->
       load_to_csv env self t s3 = (inr u, s4) ->
       load_to_db env self t "processed_data" s4 = (inl e, s5) ->
       failed_with e m /\ exc_msg e <> "") /\
    (files s !! source_path self = None ->
       failed_with (FileNotFoundError (source_path self)) m /\
       files s' = files s /\ db s' = db s).
Proof.
  intros Henv. rewrite run_unfold.
  pose proof (outspoken_run_stages self Henv (started env s)) as Hsaid.
  destruct (run_stages env self (started env s)) as [[e|m] s2] eqn:Hrs.
  - eexists _, _. split; [done|]. split; [by destruct s2|]. simpl.
    assert (forall e' s3,
              @eq ((exception + Metrics) * State) (inl e, s2) (inl e', s3) ->
              failed_with e'
                (set_error (exc_msg e)
                   (set_status "failed"
                      (set_end_time (isoformat env (clock env (ticks s2)))
                         (metrics s2)))) /\ exc_msg e' <> "") as Hfail.
    { intros e' s3 Heq. simplify_eq. split; [|by eapply Hsaid].
      unfold failed_with; simpl. eauto. }
    split; [exact Hfail|]. split_and!.
    + intros e' s3 Hex. pose proof (run_stages_extract_fails _ _ _ _ Hex) as Hr.
      rewrite Hrs in Hr. destruct (Hfail _ _ Hr) as [Hf Hm].
      apply keeps_outputs_extract in Hex as [Hfiles Hdb]. by simplify_eq.
    + intros d s3 e' s4 Hex Htr.
      pose proof (run_stages_transform_fails _ _ _ _ _ _ Hex Htr) as Hr.
      rewrite Hrs in Hr. destruct (Hfail _ _ Hr) as [Hf Hm].
      apply keeps_outputs_extract in Hex as [Hfiles Hdb].
      apply keeps_outputs_transform in Htr as [Hfiles' Hdb']. simplify_eq.
      unfold started in *; simpl in *.
      split_and!; [done|done|congruence|congruence].
    + intros d s3 t s4 e' s5 Hex Htr Hcsv.
      pose proof (run_stages_load_to_csv_fails _ _ _ _ _ _ _ _ Hex Htr Hcsv) as Hr.
      rewrite Hrs in Hr. destruct (Hfail _ _ Hr) as [Hf Hm].
      apply keeps_outputs_extract in Hex as [_ Hdb].
      apply keeps_outputs_transform in Htr as [_ Hdb'].
      apply keeps_db_load_to_csv in Hcsv. simplify_eq.
      unfold started in *; simpl in *.
      split_and!; [done|done|congruence].
    + intros d s3 t s4 u s5 e' s6 Hex Htr Hcsv Hdb.
      pose proof (run_stages_load_to_db_fails _ _ _ _ _ _ _ _ _ _
                    Hex Htr Hcsv Hdb) as Hr.
      rewrite Hrs in Hr. exact (Hfail _ _ Hr).
    + intros Hnone.
      pose proof (extract_missing_source self (started env s) Hnone) as Hex.
      pose proof (run_stages_extract_fails _ _ _ _ Hex) as Hr.
      rewrite Hrs in Hr. destruct (Hfail _ _ Hr) as [Hf Hm]. by simplify_eq.
  - exists m, s2. split; [done|].
    split; [by eapply run_stages_returns_metrics|]. split_and!.
    + intros e s3 Heq. done.
    + intros e' s3 Hex. pose proof (run_stages_extract_fails _ _ _ _ Hex) as Hr.
      by rewrite Hrs in Hr.
    + intros d s3 e' s4 Hex Htr.
      pose proof (run_stages_transform_fails _ _ _ _ _ _ Hex Htr) as Hr.
      by rewrite Hrs in Hr.
    + intros d s3 t s4 e' s5 Hex Htr Hcsv.
      pose proof (run_stages_load_to_csv_fails _ _ _ _ _ _ _ _ Hex Htr Hcsv) as Hr.
      by rewrite Hrs in Hr.
    + intros d s3 t s4 u s5 e' s6 Hex Htr Hcsv Hdb.
      pose proof (run_stages_load_to_db_fails _ _ _ _ _ _ _ _ _ _
                    Hex Htr Hcsv Hdb) as Hr.
      by rewrite Hrs in Hr.
    + intros Hnone.
      pose proof (extract_missing_source self (started env s) Hnone) as Hex.
      pose proof (run_stages_extract_fails _ _ _ _ Hex) as Hr.
      by rewrite Hrs in Hr.
Qed.

End RunProperties.

Lemma sample_env_messages_nonempty : env_messages_nonempty sample_env.
Proof.
  unfold env_messages_nonempty; simpl. split_and!; try (intros; by simplify_eq).
  - intros text e H. unfold sample_read_csv in H. destruct text; by simplify_eq.
  - intros text e H. unfold sample_fromisoformat in H.
    destruct (parse_digits text) as [[t|]|]; by simplify_eq.
Qed.

(** A whole run on a readable source: one row of three is dropped, both
    sinks are written, no failure is reported. *)
Example run_on_people :
  let fs : gmap string string := {[ "data/people.csv" := "id,name,age" ]} in
  exists m s',
    run sample_env sample_pipeline (initial_state fs ∅) = (inr m, s') /\
    rows_processed m = 2 /\ rows_filtered m = 1 /\
    status m = None /\ error m = None /\
    execution_time_seconds m = Some (2 # 1000000)%Q /\
    is_Some (files s' !! "out.csv") /\
    is_Some (db s' !! "etl_output.db").
Proof.
  eexists _, _. split; [vm_compute; reflexivity|].
  split_and!; try reflexivity; by eexists.
Qed.

Lemma run_returns_metrics_and_reports_failure_witness :
  exists m s',
    run sample_env sample_pipeline (initial_state ∅ ∅) = (inr m, s') /\
    m = metrics s' /\
    status m = Some "failed" /\
    error m = Some "[Errno 2] No such file or directory: 'data/people.csv'" /\
    is_Some (end_time m) /\
    files s' = ∅ /\ db s' = ∅.
Proof.
  destruct (run_returns_metrics_and_reports_failure sample_env sample_pipeline
              (initial_state ∅ ∅) sample_env_messages_nonempty)
    as (m & s' & Hrun & Hm & _ & _ & _ & _ & _ & Hmissing).
  destruct (Hmissing eq_refl) as ((Hst & Herr & Hend) & Hfiles & Hdb).
  exists m, s'. split_and!; done.
Defined.

(** ** The stages one by one *)

Section StageProperties.

Context {number : Type} (env : @Env number).

Implicit Types (df : DataFrame number) (s : @State number) (r : ref).

(** X1. [extract] changes nothing but the store of frames, to which it adds
    at most one frame, the one read from the source file; when it raises
    it changes nothing at all, and a source file that is there but does not
    read as CSV raises the error of the reader. *)
Theorem extract_only_adds_the_frame_read self s res s' :
  extract env self s = (res, s') ->
  metrics s' = metrics s /\ files s' = files s /\ db s' = db s /\
  ticks s' = ticks s /\
  match res with
  | inl e =>
      s' = s /\
      (files s !! source_path self = None /\
       e = FileNotFoundError (source_path self) \/
       exists text, files s !! source_path self = Some text /\
                    read_csv env text = inl e)
  | inr out =>
      out = length (heap s) /\
      exists text df,
        files s !! source_path self = Some text /\
        read_csv env text = inr df /\
        heap s' = heap s ++ [df]
  end.
Proof.
  unfold extract, try_except, mbind, M_bind, get_files. intros H.
  destruct (files s !! source_path self) as [text|] eqn:Hf.
  - destruct (read_csv env text) as [e|df] eqn:Hr;
      unfold lift, raise, alloc in H; simpl in H; simplify_eq; simpl.
    + split_and!; try done. right. by exists text.
    + split_and!; try done. by exists text, df.
  - unfold raise in H. simplify_eq. split_and!; try done. by left.
Qed.

(** X2. A load to CSV that is not refused replaces the text of the target
    path by the text of the frame and touches no other path, no table, no
    frame and no metric. *)
Theorem load_to_csv_replaces_target_only self data s df :
  heap s !! data = Some df ->
  open_error env (target_path self) = None ->
  exists s',
    load_to_csv env self data s = (inr tt, s') /\
    files s' !! target_path self = Some (to_csv env df) /\
    (forall path, path <> target_path self -> files s' !! path = files s !! path) /\
    heap s' = heap s /\ metrics s' = metrics s /\ db s' = db s /\
    ticks s' = ticks s.
Proof.
  intros H Hopen. eexists. split.
  - unfold load_to_csv, try_except, mbind, M_bind, deref. by rewrite H, Hopen.
  - simpl. split; [by rewrite lookup_insert_eq|]. split; [|done].
    intros path Hne. by rewrite lookup_insert_ne.
Qed.

(** X3. Two loads to CSV in a row leave the files as the second one alone
    does: the file is overwritten, not appended to. *)
Theorem load_to_csv_twice_is_last self d1 d2 s df1 df2 :
  heap s !! d1 = Some df1 ->
  heap s !! d2 = Some df2 ->
  open_error env (target_path self) = None ->
  (load_to_csv env self d1 ;; load_to_csv env self d2) s
  = load_to_csv env self d2 s.
Proof.
  intros H1 H2 Hopen.
  unfold mbind, M_bind, load_to_csv, try_except, mbind, M_bind, deref.
  rewrite H1, Hopen. simpl. rewrite H2.
  unfold set_files; simpl. by rewrite insert_insert_eq.
Qed.

(** X4. A load to the store that neither [connect] nor [to_sql] refuses
    replaces the named table of the data base by the frame; the other
    tables of that data base, the other data bases, the files, the frames
    and the metrics stay.  The call returns when the count of the rows
    succeeds, as it does for a bare name; when the count fails the call
    raises its error, and the table is replaced all the same. *)
Theorem load_to_db_replaces_table_only self data name s df :
  heap s !! data = Some df ->
  connect_error env (db_path self) = None ->
  to_sql_error env name df = None ->
  exists res s' tables,
    load_to_db env self data name s = (res, s') /\
    db s' !! db_path self = Some tables /\
    tables !! name = Some df /\
    (forall other, other <> name ->
       tables !! other = default ∅ (db s !! db_path self) !! other) /\
    (forall path, path <> db_path self -> db s' !! path = db s !! path) /\
    heap s' = heap s /\ metrics s' = metrics s /\ files s' = files s /\
    ticks s' = ticks s /\
    (bare_name name = true -> res = inr tt) /\
    (forall e,
       bare_name name = false ->
       execute_error env tables (count_query name) = Some e -> res = inl e) /\
    (execute_error env tables (count_query name) = None -> res = inr tt).
Proof.
  intros H Hconn Hsql.
  exists (match count_error env
                  (<[name := df]> (default ∅ (db s !! db_path self))) name with
          | Some e => inl e
          | None => inr tt
          end).
  eexists _, _. split.
  - unfold load_to_db, try_except, mbind, M_bind, deref.
    rewrite H, Hconn, Hsql.
    destruct (count_error env _ name); reflexivity.
  - simpl. split; [by rewrite lookup_insert_eq|].
    split; [by rewrite lookup_insert_eq|].
    split; [intros other Hne; by rewrite lookup_insert_ne|].
    split; [intros path Hne; by rewrite lookup_insert_ne|].
    split_and!; try done.
    + intros Hbare. by rewrite count_error_bare.
    + intros e Hbare He. unfold count_error. by rewrite Hbare, He.
    + intros He. unfold count_error. rewrite He. by destruct (bare_name name).
Qed.

(** X5. Two loads of the same table in a row, the first of which returns,
    leave the store as the second one alone does: the table is replaced,
    rows are not added to it.  The first load returns when the count of its
    rows succeeds, as it does for a bare name. *)
Theorem load_to_db_twice_is_last self d1 d2 name s df1 df2 :
  heap s !! d1 = Some df1 ->
  heap s !! d2 = Some df2 ->
  connect_error env (db_path self) = None ->
  to_sql_error env name df1 = None ->
  to_sql_error env name df2 = None ->
  count_error env (<[name := df1]> (default ∅ (db s !! db_path self))) name
  = None ->
  (load_to_db env self d1 name ;; load_to_db env self d2 name) s
  = load_to_db env self d2 name s.
Proof.
  intros H1 H2 Hconn Hs1 Hs2 Hcount.
  unfold mbind, M_bind, load_to_db, try_except, mbind, M_bind, deref.
  rewrite H1, Hconn, Hs1, Hcount. simpl. rewrite H2, Hs2.
  unfold set_db; simpl. rewrite lookup_insert_eq. simpl.
  by rewrite !insert_insert_eq.
Qed.

End StageProperties.

(** ** [transform] used again *)

Section TransformAgain.

Context {number : Type} (env : @Env number).

Implicit Types (df : DataFrame number) (s : @State number) (r : ref).

Lemma frame_eq df df' :
  nrows df = nrows df' -> columns df = columns df' -> df = df'.
Proof. destruct df, df'; simpl. by intros -> ->. Qed.

Lemma series_eq (c c' : Series number) :
  dtype_of c = dtype_of c' -> values c = values c' -> c = c'.
Proof. destruct c, c'; simpl. by intros -> ->. Qed.

Lemma filter_all {A} (P : A -> Prop) `{!forall x, Decision (P x)} (l : list A) :
  Forall P l -> filter P l = l.
Proof.
  induction 1 as [|x l Hx Hl IH]; [done|].
  by rewrite filter_cons_True, IH.
Qed.

Lemma cells_of_column (c : Series number) :
  map (cell c) (seq 0 (length (values c))) = values c.
Proof.
  unfold cell. rewrite (map_lookup_seq (fun v => v) Null). apply map_id.
Qed.

Lemma notna_positions_all df :
  Forall (fun row => has_null row = false) (rows df) ->
  notna_positions df = seq 0 (nrows df).
Proof.
  intros Hall. unfold notna_positions. apply filter_all.
  apply Forall_forall. intros i Hi. apply row_complete_has_null.
  rewrite Forall_forall in Hall. apply Hall. unfold rows.
  apply list_elem_of_fmap. by exists i.
Qed.

(** A rectangular frame without a missing value is its own cleaned
    frame. *)
Lemma dropna_without_null df :
  rectangular df ->
  Forall (fun row => has_null row = false) (rows df) ->
  dropna df = df.
Proof.
  intros Hrect Hall. apply frame_eq.
  - unfold dropna; simpl. rewrite notna_positions_all by done.
    by rewrite length_seq.
  - unfold dropna; simpl. rewrite notna_positions_all by done.
    rewrite <- (list_fmap_id (columns df)) at 2. apply list_fmap_ext.
    intros i [k c] Hi; simpl. f_equal.
    apply list_elem_of_lookup_2 in Hi.
    unfold rectangular in Hrect. rewrite Forall_forall in Hrect.
    specialize (Hrect _ Hi); simpl in Hrect.
    apply series_eq; [done|]. simpl. rewrite <- Hrect. apply cells_of_column.
Qed.

(** X6. On a frame without a missing value [transform] drops no row: the
    frame returned has as many rows as the input, [rows_filtered] stays as
    it was and [rows_processed] is the number of rows of the input. *)
Theorem transform_without_null_keeps_all_rows self data s df :
  heap s !! data = Some df ->
  unique_labels df ->
  rectangular df ->
  Forall (fun row => has_null row = false) (rows df) ->
  exists out s' df',
    transform env self data s = (inr out, s') /\
    heap s' !! out = Some df' /\
    nrows df' = nrows df /\
    rows_filtered (metrics s') = rows_filtered (metrics s) /\
    rows_processed (metrics s') = len df.
Proof.
  intros H Hnd Hrect Hall.
  destruct (transform_returns env self data s df H Hnd) as (out & Hout & Hrun).
  eexists _, _, out. split; [exact Hrun|]. simpl.
  split; [apply lookup_alloc|].
  apply nrows_transform_frame in Hout.
  rewrite (dropna_without_null df Hrect Hall) in Hout.
  unfold len. rewrite Hout, (dropna_without_null df Hrect Hall).
  split_and!; [done|lia|done].
Qed.

(** X7. The same pipeline object used for two transformations of a frame:
    [rows_filtered] adds up over the calls while [rows_processed] is
    written anew, so the first count holds the dropped rows twice. *)
Theorem transform_twice_accumulates_filtered self data s df :
  heap s !! data = Some df ->
  unique_labels df ->
  exists out1 s1 out2 s2,
    transform env self data s = (inr out1, s1) /\
    transform env self data s1 = (inr out2, s2) /\
    out1 <> out2 /\
    rows_processed (metrics s2) = len (dropna df) /\
    rows_filtered (metrics s2)
    = rows_filtered (metrics s) + 2 * (len df - len (dropna df)).
Proof.
  intros H Hnd.
  destruct (transform_returns env self data s df H Hnd) as (o1 & Ho1 & Hrun1).
  set (s1 := (transform env self data s).2).
  assert (heap s1 !! data = Some df) as H1.
  { unfold s1. rewrite Hrun1. simpl. rewrite lookup_app_l; [done|].
    by eapply lookup_lt_Some. }
  destruct (transform_returns env self data s1 df H1 Hnd) as (o2 & Ho2 & Hrun2).
  eexists _, s1, _, _. split; [by (unfold s1; rewrite Hrun1)|].
  split; [exact Hrun2|]. unfold s1. rewrite Hrun1. simpl.
  rewrite length_app; simpl. split; [lia|].
  apply nrows_transform_frame in Ho2. unfold len. rewrite Ho2.
  split; [done|]. lia.
Qed.

(** X8. Whatever its outcome, [transform] on a frame that exists writes no
    file and no table, reads the clock once, and of the metrics changes
    the two row counts only. *)
Theorem transform_touches_counts_only self data s df :
  heap s !! data = Some df ->
  files (transform env self data s).2 = files s /\
  db (transform env self data s).2 = db s /\
  ticks (transform env self data s).2 = S (ticks s) /\
  rows_with_errors (metrics (transform env self data s).2)
  = rows_with_errors (metrics s) /\
  start_time (metrics (transform env self data s).2) = start_time (metrics s) /\
  end_time (metrics (transform env self data s).2) = end_time (metrics s) /\
  status (metrics (transform env self data s).2) = status (metrics s) /\
  error (metrics (transform env self data s).2) = error (metrics s).
Proof.
  intros H. rewrite (transform_run env _ _ _ _ H).
  by destruct (transform_frame env self _ df).
Qed.

Lemma normalize_column_idempotent (k : string) (c : Series number) :
  let g := fun c : string * Series number =>
             if is_object c then (c.1, numeric_form env c.2) else c in
  g (g (k, c)) = g (k, c).
Proof.
  simpl. unfold is_object at 2; simpl.
  destruct (decide (dtype_of c = object)) as [Hobj|Hobj].
  - rewrite bool_decide_eq_true_2 by done. unfold is_object; simpl.
    unfold numeric_form, to_numeric.
    destruct (mapM _ (values c)) as [vs|] eqn:Hvs; simpl; [done|].
    rewrite bool_decide_eq_true_2 by done. simpl. by rewrite Hvs.
  - rewrite bool_decide_eq_false_2 by done. unfold is_object; simpl.
    by rewrite bool_decide_eq_false_2.
Qed.

Lemma validate_frame_idempotent df :
  unique_labels df ->
  validate_frame env (validate_frame env df) = validate_frame env df.
Proof.
  intros Hnd. apply frame_eq; [by rewrite !nrows_validate_frame|].
  rewrite (columns_validate_frame env (validate_frame env df)).
  2:{ unfold unique_labels. by rewrite labels_validate_frame. }
  rewrite columns_validate_frame by done. rewrite <- list_fmap_compose.
  apply list_fmap_ext. intros i [k c] _.
  apply (normalize_column_idempotent k c).
Qed.

(** X9. Step 2 run twice on a frame does what one run does: a column that
    was converted is no longer of dtype object, and a column that was
    refused is refused again. *)
Theorem data_validation_idempotent r s df :
  heap s !! r = Some df ->
  unique_labels df ->
  (data_validation env r ;; data_validation env r) s = data_validation env r s.
Proof.
  intros H Hnd. unfold mbind, M_bind.
  rewrite (data_validation_run env _ _ _ H).
  erewrite data_validation_run.
  2:{ simpl. apply list_lookup_insert_eq. by eapply lookup_lt_Some. }
  rewrite validate_frame_idempotent by done.
  destruct s; unfold set_heap; simpl. by rewrite list_insert_insert_eq.
Qed.

End TransformAgain.

(** ** [run] from start to end *)

Section RunAgain.

Context {number : Type} (env : @Env number).

Implicit Types (df : DataFrame number) (s : @State number) (r : ref).

Lemma lookup_alloc_2 (h : list (DataFrame number)) df df' :
  (h ++ [df; df']) !! S (length h) = Some df'.
Proof.
  rewrite lookup_app_r by lia.
  by replace (S (length h) - length h)%nat with 1%nat by lia.
Qed.

Lemma extract_run self s text df :
  files s !! source_path self = Some text ->
  read_csv env text = inr df ->
  extract env self s = (inr (length (heap s)), set_heap (heap s ++ [df]) s).
Proof.
  intros Hf Hr. unfold extract, try_except, mbind, M_bind, get_files.
  by rewrite Hf, Hr.
Qed.

Lemma load_to_csv_run self data s df :
  heap s !! data = Some df ->
  open_error env (target_path self) = None ->
  load_to_csv env self data s
  = (inr tt, set_files (<[target_path self := to_csv env df]> (files s)) s).
Proof.
  intros H Hopen. unfold load_to_csv, try_except, mbind, M_bind, deref.
  by rewrite H, Hopen.
Qed.

Lemma load_to_db_run self data name s df :
  heap s !! data = Some df ->
  connect_error env (db_path self) = None ->
  to_sql_error env name df = None ->
  bare_name name = true ->
  load_to_db env self data name s
  = (inr tt,
     set_db (<[db_path self :=
                 <[name := df]> (default ∅ (db s !! db_path self))]> (db s)) s).
Proof.
  intros H Hconn Hsql Hbare. unfold load_to_db, try_except, mbind, M_bind, deref.
  by rewrite H, Hconn, Hsql, count_error_bare.
Qed.

(** The state after the first two stages of a run whose source reads as
    the frame [df]. *)
Lemma run_stages_transformed self s text df :
  files s !! source_path self = Some text ->
  read_csv env text = inr df ->
  unique_labels df ->
  exists out,
    transform_frame env self (clock env (ticks s)) df = inr out /\
    (data ← extract env self; transform env self data) s
    = (inr (S (length (heap s))),
       mkState (heap s ++ [df; out])
         (set_rows_processed (len out) (counted df (metrics s)))
         (files s) (db s) (S (ticks s))).
Proof.
  intros Hf Hr Hnd. unfold mbind, M_bind.
  rewrite (extract_run self s text df Hf Hr).
  destruct (transform_returns env self (length (heap s))
              (set_heap (heap s ++ [df]) s) df) as (out & Hout & Hrun).
  { simpl. apply lookup_alloc. }
  { done. }
  exists out. split; [exact Hout|]. rewrite Hrun. simpl.
  rewrite length_app, Nat.add_1_r. by rewrite <- app_assoc.
Qed.

(** X10. A run in which no stage fails and the two times read back from their
    text: the metrics hold the first and the third clock reading, their
    difference and the row counts; no status and no error is written; the
    target file holds the text of the transformed frame and the table
    [processed_data] holds the transformed frame. *)
Theorem run_success self s text df :
  files s !! source_path self = Some text ->
  read_csv env text = inr df ->
  unique_labels df ->
  open_error env (target_path self) = None ->
  connect_error env (db_path self) = None ->
  (forall out, to_sql_error env "processed_data" out = None) ->
  fromisoformat env (isoformat env (clock env (ticks s)))
  = inr (clock env (ticks s)) ->
  fromisoformat env (isoformat env (clock env (S (S (ticks s)))))
  = inr (clock env (S (S (ticks s)))) ->
  exists m s' out,
    run env self s = (inr m, s') /\
    m = metrics s' /\
    transform_frame env self (clock env (S (ticks s))) df = inr out /\
    start_time m = Some (isoformat env (clock env (ticks s))) /\
    end_time m = Some (isoformat env (clock env (S (S (ticks s))))) /\
    execution_time_seconds m
    = Some (total_seconds (clock env (ticks s)) (clock env (S (S (ticks s))))) /\
    status m = status (metrics s) /\
    error m = error (metrics s) /\
    rows_processed m = len out /\
    rows_filtered m = rows_filtered (metrics s) + (len df - len out) /\
    files s' = <[target_path self := to_csv env out]> (files s) /\
    db s' !! db_path self
    = Some (<["processed_data" := out]> (default ∅ (db s !! db_path self))) /\
    ticks s' = S (S (S (ticks s))).
Proof.
  intros Hf Hr Hnd Hopen Hconn Hsql Hiso0 Hiso2. rewrite run_unfold.
  destruct (run_stages_transformed self (started env s) text df)
    as (out & Hout & Hrun); [done..|].
  pose proof (nrows_transform_frame env _ _ _ _ Hout) as Hn.
  unfold mbind, M_bind in Hrun.
  unfold run_stages, mbind, M_bind.
  destruct (extract env self (started env s)) as [[e|d] s1]; [done|].
  destruct (transform env self d s1) as [[e|t] s2]; [done|].
  simplify_eq.
  erewrite load_to_csv_run; [|simpl|done].
  2:{ apply lookup_alloc_2. }
  erewrite load_to_db_run; [|simpl|done|apply Hsql|done].
  2:{ apply lookup_alloc_2. }
  unfold now, modify_metrics, get_metrics, lift; simpl.
  rewrite Hiso0; simpl. rewrite Hiso2; simpl.
  eexists _, _, out. split; [done|]. simpl.
  split_and!; try done.
  - unfold len. rewrite Hn. lia.
  - by rewrite lookup_insert_eq.
Qed.

(** X11. The store refuses after the CSV file was written: the run reports
    the failure, the file stays written and the store is as it was. *)
Theorem run_store_failure_leaves_csv self s text df e :
  files s !! source_path self = Some text ->
  read_csv env text = inr df ->
  unique_labels df ->
  open_error env (target_path self) = None ->
  connect_error env (db_path self) = Some e ->
  exists m s' out,
    run env self s = (inr m, s') /\
    transform_frame env self (clock env (S (ticks s))) df = inr out /\
    status m = Some "failed" /\
    error m = Some (exc_msg e) /\
    rows_processed m = len out /\
    files s' = <[target_path self := to_csv env out]> (files s) /\
    db s' = db s.
Proof.
  intros Hf Hr Hnd Hopen Hconn. rewrite run_unfold.
  destruct (run_stages_transformed self (started env s) text df)
    as (out & Hout & Hrun); [done..|].
  unfold mbind, M_bind in Hrun.
  unfold run_stages, mbind, M_bind.
  destruct (extract env self (started env s)) as [[e1|d] s1]; [done|].
  destruct (transform env self d s1) as [[e1|t] s2]; [done|].
  simplify_eq.
  erewrite load_to_csv_run; [|simpl|done].
  2:{ apply lookup_alloc_2. }
  unfold load_to_db, try_except, mbind, M_bind, deref; simpl.
  rewrite lookup_alloc_2, Hconn. simpl.
  by eexists _, _, out.
Qed.

Lemma keeps_bind {A B X} (f : Metrics -> X) (m : M A) (k : A -> M B) :
  keeps (number := number) f m -> (forall x, keeps f (k x)) ->
  keeps f (m ≫= k).
Proof.
  intros Hm Hk s r s' H. unfold mbind, M_bind in H.
  destruct (m s) as [[e|x] s1] eqn:Hms.
  - simplify_eq. by eapply Hm.
  - rewrite (Hk x _ _ _ H). by eapply Hm.
Qed.

Lemma keeps_extract {X} (f : Metrics -> X) self : keeps f (extract env self).
Proof.
  intros s r s' H. unfold extract, try_except, mbind, M_bind, get_files in H.
  destruct (files s !! source_path self) as [text|].
  - destruct (read_csv env text) as [e|df]; unfold lift, raise, alloc in H;
      simpl in H; by simplify_eq.
  - unfold raise in H. by simplify_eq.
Qed.

Lemma keeps_load_to_csv {X} (f : Metrics -> X) self data :
  keeps f (load_to_csv env self data).
Proof.
  intros s r s' H. unfold load_to_csv, try_except, mbind, M_bind, deref in H.
  destruct (heap s !! data); [|unfold raise in H; by simplify_eq].
  destruct (open_error env _); unfold raise in H; by simplify_eq.
Qed.

Lemma keeps_load_to_db {X} (f : Metrics -> X) self data name :
  keeps f (load_to_db env self data name).
Proof.
  intros s r s' H. unfold load_to_db, try_except, mbind, M_bind, deref in H.
  destruct (heap s !! data); [|unfold raise in H; by simplify_eq].
  destruct (connect_error env _); [unfold raise in H; by simplify_eq|].
  destruct (to_sql_error env _ _); [unfold raise in H; by simplify_eq|].
  destruct (count_error env _ _); unfold raise in H; by simplify_eq.
Qed.

Lemma keeps_lift {A X} (f : Metrics -> X) (x : exception + A) :
  keeps (number := number) f (lift x).
Proof.
  intros s r s' H. destruct x; unfold lift, raise, mret, M_ret in H;
    by simplify_eq.
Qed.

Lemma keeps_now {X} (f : Metrics -> X) : keeps f (now env).
Proof. intros s r s' H. unfold now in H. by simplify_eq. Qed.

Lemma keeps_get_metrics {X} (f : Metrics -> X) :
  keeps (number := number) f get_metrics.
Proof. intros s r s' H. unfold get_metrics in H. by simplify_eq. Qed.

Lemma keeps_modify_metrics {X} (f : Metrics -> X) (g : Metrics -> Metrics) :
  (forall m, f (g m) = f m) -> keeps (number := number) f (modify_metrics g).
Proof.
  intros Hg s r s' H. unfold modify_metrics in H. simplify_eq. simpl. apply Hg.
Qed.

(** The stages after [transform] write the two times and their
    difference, and nothing else of the metrics. *)
Lemma keeps_run_loads {X} (f : Metrics -> X) self t :
  (forall v m, f (set_end_time v m) = f m) ->
  (forall v m, f (set_execution_time_seconds v m) = f m) ->
  keeps f (run_loads env self t).
Proof.
  intros Hend Hexec. unfold run_loads.
  apply keeps_bind; [apply keeps_load_to_csv|]. intros _.
  apply keeps_bind; [apply keeps_load_to_db|]. intros _.
  apply keeps_bind; [apply keeps_now|]. intros t1.
  apply keeps_bind; [by apply keeps_modify_metrics|]. intros _.
  apply keeps_bind; [apply keeps_get_metrics|]. intros m.
  apply keeps_bind; [apply keeps_lift|]. intros start.
  apply keeps_bind; [apply keeps_get_metrics|]. intros m'.
  apply keeps_bind; [apply keeps_lift|]. intros finish.
  apply keeps_bind; [by apply keeps_modify_metrics|]. intros _.
  apply keeps_get_metrics.
Qed.

Lemma run_stages_unfold self :
  run_stages env self
  = (data ← extract env self;
     transformed_data ← transform env self data;
     run_loads env self transformed_data).
Proof. reflexivity. Qed.

Lemma keeps_report_transform self data : keeps report (transform env self data).
Proof.
  intros s r s' H. destruct (heap s !! data) as [df|] eqn:Hd.
  - rewrite (transform_run env _ _ _ _ Hd) in H.
    destruct (transform_frame _ _ _ _); by simplify_eq.
  - unfold transform, data_cleaning, mbind, M_bind, deref in H.
    rewrite Hd in H. by simplify_eq.
Qed.

Lemma keeps_report_run_stages self : keeps report (run_stages env self).
Proof.
  rewrite run_stages_unfold.
  apply keeps_bind; [apply keeps_extract|]. intros data.
  apply keeps_bind; [apply keeps_report_transform|]. intros t.
  by apply keeps_run_loads.
Qed.

(** X12. [run] never takes a failure report back: [rows_with_errors] is never
    written, and [status] and [error] are either left as they were or set
    to those of a failure.  A pipeline object that reported a failure
    reports it after a later run that succeeds. *)
Theorem run_never_clears_status self s m s' :
  run env self s = (inr m, s') ->
  rows_with_errors m = rows_with_errors (metrics s) /\
  (status m = status (metrics s) /\ error m = error (metrics s) \/
   status m = Some "failed" /\ is_Some (error m)) /\
  (status (metrics s) = Some "failed" -> status m = Some "failed").
Proof.
  rewrite run_unfold. intros H.
  destruct (run_stages env self (started env s)) as [[e|m2] s2] eqn:Hrs.
  - pose proof (keeps_report_run_stages self _ _ _ Hrs) as Hk.
    unfold report in Hk. simpl in H, Hk. simplify_eq. simpl.
    split_and!; [done| |done]. right. eauto.
  - pose proof (keeps_report_run_stages self _ _ _ Hrs) as Hk.
    apply run_stages_returns_metrics in Hrs. unfold report in Hk.
    simpl in Hk. simplify_eq.
    split_and!; [done| |congruence]. by left.
Qed.

End RunAgain.

(** ** The pipeline on its own output, and the source file name *)

Section OwnOutput.

Context {number : Type} (env : @Env number).

Implicit Types (df : DataFrame number) (s : @State number) (r : ref).

Lemma labels_transform_frame self t df out :
  unique_labels df ->
  transform_frame env self t df = inr out ->
  labels out
  = labels df
    ++ filter (fun l => l ∉ labels df)
         ["etl_timestamp"; "source_file"; "combined_field"].
Proof.
  intros Hnd Hout. unfold transform_frame in Hout.
  pose proof (unique_labels_enriched_frame env self t df Hnd) as He.
  assert (unique_labels (validate_frame env (dropna df))) as Hv.
  { unfold unique_labels. by rewrite labels_validate_frame, labels_dropna. }
  destruct (object_columns_enrich_frame env self t _ Hv) as (c1 & c2 & rest & Hobj).
  destruct (combine_frame_two env _ c1 c2 rest He Hobj)
    as (a & b & _ & _ & _ & _ & Hcomb).
  rewrite Hcomb in Hout. simplify_eq. unfold enriched_frame, enrich_frame.
  rewrite labels_setitem_three.
  by rewrite labels_validate_frame, labels_dropna.
Qed.

Lemma unique_labels_transform_frame self t df out :
  unique_labels df ->
  transform_frame env self t df = inr out ->
  unique_labels out.
Proof.
  intros Hnd Hout. unfold transform_frame in Hout.
  pose proof (unique_labels_enriched_frame env self t df Hnd) as He.
  unfold combine_frame in Hout.
  destruct (take 2 _) as [|c1 [|c2 l]]; simplify_eq; try done.
  destruct (getitem _ c1); [done|]. destruct (getitem _ c2); [done|].
  simplify_eq. by apply unique_labels_setitem.
Qed.

Lemma filter_absent_nil (l k : list string) :
  (forall x, x ∈ k -> x ∈ l) -> filter (fun x => x ∉ l) k = [].
Proof.
  induction k as [|x k IH]; intros Hk; [done|].
  rewrite filter_cons_False.
  - apply IH. intros y Hy. by apply Hk, list_elem_of_further.
  - intros Hx. apply Hx, Hk, list_elem_of_here.
Qed.

Lemma new_labels_present (l : list string) (k : list string) x :
  x ∈ k -> x ∈ l ++ filter (fun y => y ∉ l) k.
Proof.
  intros Hx. destruct (decide (x ∈ l)) as [Hl|Hl].
  - apply elem_of_app. by left.
  - apply elem_of_app. right. by apply list_elem_of_filter.
Qed.

(** X13. The pipeline run on a frame that [transform] returned adds no
    column: the three labels are there already and are written in place. *)
Theorem transform_of_own_output_adds_no_column self self' data s df :
  heap s !! data = Some df ->
  unique_labels df ->
  exists out1 s1 df1 out2 s2 df2,
    transform env self data s = (inr out1, s1) /\
    heap s1 !! out1 = Some df1 /\
    transform env self' out1 s1 = (inr out2, s2) /\
    heap s2 !! out2 = Some df2 /\
    heap s2 !! out1 = Some df1 /\
    labels df2 = labels df1.
Proof.
  intros H Hnd.
  destruct (transform_returns env self data s df H Hnd) as (o1 & Ho1 & Hrun1).
  pose proof (labels_transform_frame _ _ _ _ Hnd Ho1) as Hl1.
  pose proof (unique_labels_transform_frame _ _ _ _ Hnd Ho1) as Hu1.
  set (s1 := (transform env self data s).2).
  assert (heap s1 !! length (heap s) = Some o1) as H1.
  { unfold s1. rewrite Hrun1. simpl. apply lookup_alloc. }
  destruct (transform_returns env self' (length (heap s)) s1 o1 H1 Hu1)
    as (o2 & Ho2 & Hrun2).
  pose proof (labels_transform_frame _ _ _ _ Hu1 Ho2) as Hl2.
  eexists _, s1, o1, _, _, o2. split; [by (unfold s1; rewrite Hrun1)|].
  split; [exact H1|]. split; [exact Hrun2|]. simpl.
  split; [apply lookup_alloc|].
  split; [rewrite lookup_app_l; [done|by eapply lookup_lt_Some]|].
  rewrite Hl2, filter_absent_nil; [by rewrite app_nil_r|].
  intros x Hx. rewrite Hl1. by apply new_labels_present.
Qed.

Lemma append_cons (a : ascii) (p q : string) :
  String a p +:+ q = String a (p +:+ q).
Proof. reflexivity. Qed.

Lemma append_empty_r (p : string) : p +:+ "" = p.
Proof. induction p as [|a p IH]; [done|]. by rewrite append_cons, IH. Qed.

Lemma append_snoc (cur : string) (c : ascii) (p : string) :
  (cur +:+ String c "") +:+ p = cur +:+ String c p.
Proof.
  induction cur as [|a cur IH]; [done|]. by rewrite !append_cons, IH.
Qed.

Lemma basename_from_no_slash (p : string) : forall cur,
  has_slash p = false -> basename_from cur p = cur +:+ p.
Proof.
  induction p as [|c p IH]; intros cur Hp; simpl in *.
  - by rewrite append_empty_r.
  - apply orb_false_iff in Hp as [Hc Hp]. rewrite Hc.
    rewrite IH by done. apply append_snoc.
Qed.

Lemma basename_from_slash (dir name : string) : forall cur,
  basename_from cur (dir +:+ String "/" name) = basename_from "" name.
Proof.
  induction dir as [|c dir IH]; intros cur; simpl; [done|].
  destruct (Ascii.eqb c "/"); apply IH.
Qed.

(** X14. The value of [source_file] is what follows the last slash of the
    source path, and the whole path when there is no slash in it. *)
Theorem source_file_is_last_component self data s df dir name :
  heap s !! data = Some df ->
  unique_labels df ->
  has_slash name = false ->
  source_path self = name \/ source_path self = dir +:+ String "/" name ->
  exists out s' df',
    transform env self data s = (inr out, s') /\
    heap s' !! out = Some df' /\
    getitem df' "source_file"
    = inr (mkSeries object (replicate (nrows df') (Str name))).
Proof.
  intros H Hnd Hname Hpath.
  destruct (transform_returns env self data s df H Hnd) as (out & Hout & Hrun).
  eexists _, _, out. split; [exact Hrun|]. simpl.
  split; [apply lookup_alloc|].
  destruct (transform_frame_metadata env self _ df out Hnd Hout) as [_ Hs].
  rewrite Hs. do 3 f_equal. unfold basename.
  destruct Hpath as [->| ->].
  - by rewrite basename_from_no_slash.
  - rewrite basename_from_slash. by rewrite basename_from_no_slash.
Qed.

End OwnOutput.

(** ** [main.py] *)

Section SampleData.

Context {number : Type} (env : @Env number) (writer : Writer number).

Implicit Types (df : DataFrame number) (s : @State number).

Lemma div_10_succ (n : Z) :
  0 <= n ->
  (n + 1) / 10 = n / 10 + (if bool_decide ((n + 1) mod 10 = 0) then 1 else 0).
Proof.
  intros Hn. case_bool_decide as Hm; Z.div_mod_to_equations; lia.
Qed.

Lemma has_empty_field_sample_row (i : Z) :
  has_empty_field (sample_row writer i) = bool_decide (i mod 10 = 0).
Proof. unfold sample_row. by case_bool_decide. Qed.

Lemma range_from_1 (n : nat) :
  range 1 (Z.of_nat n + 1) = (fun k => 1 + Z.of_nat k) <$> seq 0 n.
Proof.
  unfold range. by replace (Z.to_nat (Z.of_nat n + 1 - 1)) with n by lia.
Qed.

Lemma sample_rows_succ (n : nat) :
  sample_rows writer (Z.of_nat (S n))
  = sample_rows writer (Z.of_nat n) ++ [sample_row writer (Z.of_nat n + 1)].
Proof.
  unfold sample_rows. rewrite !range_from_1, seq_S, !fmap_app. simpl.
  do 3 f_equal. lia.
Qed.

Lemma sample_rows_empty_count (n : nat) :
  length (filter (fun row => has_empty_field row = true)
            (sample_rows writer (Z.of_nat n)))
  = Z.to_nat (Z.of_nat n / 10).
Proof.
  induction n as [|n IH]; [done|].
  rewrite sample_rows_succ, filter_app, length_app, IH.
  replace (Z.of_nat (S n)) with (Z.of_nat n + 1) by lia.
  rewrite div_10_succ by lia.
  pose proof (Z.div_pos (Z.of_nat n) 10).
  rewrite filter_cons, filter_nil, has_empty_field_sample_row.
  case_bool_decide as Hm; simpl; lia.
Qed.

Lemma length_filter_split {A} (f : A -> bool) (l : list A) :
  (length (filter (fun x => f x = true) l)
   + length (filter (fun x => f x = false) l))%nat = length l.
Proof.
  induction l as [|x l IH]; [done|]. rewrite !filter_cons.
  destruct (f x) eqn:Hx; simpl; lia.
Qed.

Lemma length_sample_rows (n : nat) :
  length (sample_rows writer (Z.of_nat n)) = n.
Proof.
  unfold sample_rows. by rewrite range_from_1, !length_fmap, length_seq.
Qed.

Lemma lookup_sample_rows (n k : nat) :
  (k < n)%nat ->
  sample_rows writer (Z.of_nat n) !! k = Some (sample_row writer (Z.of_nat k + 1)).
Proof.
  intros Hk. unfold sample_rows.
  rewrite range_from_1, <- list_fmap_compose, list_lookup_fmap.
  rewrite lookup_seq_lt by done. simpl. f_equal. f_equal. lia.
Qed.

(** X15. [generate_sample_data] on a file that can be opened returns and
    leaves in it, and in no other file, the text that [csv.writer] makes
    of the header [id, name, age, email, purchase_amount] followed by one
    row per number from 1 to [num_rows].  The row of [i] has five fields:
    [i], the name and the address made of [i], and the amount; its age,
    the third field, is empty exactly when [i] is a multiple of ten, which
    makes [num_rows / 10] rows with an empty field; an age that is there
    lies between 20 and 59. *)
Theorem generate_sample_data_every_tenth_incomplete filename (num_rows : Z) s :
  0 <= num_rows ->
  open_error env filename = None ->
  exists data_rows,
    generate_sample_data env writer filename num_rows s
    = (inr tt,
       set_files
         (<[filename :=
              csv_text writer
                ([FText "id"; FText "name"; FText "age"; FText "email";
                  FText "purchase_amount"] :: data_rows)]> (files s)) s) /\
    length data_rows = Z.to_nat num_rows /\
    (forall k row, data_rows !! k = Some row ->
       let i := Z.of_nat k + 1 in
       exists age,
         row = [FInt i; FText ("Person " +:+ pretty i); age;
                FText ("person" +:+ pretty i +:+ "@example.com");
                FFloat (purchase_amount writer i)] /\
         (has_empty_field row = true <-> i mod 10 = 0) /\
         (i mod 10 = 0 -> age = FText "") /\
         (i mod 10 <> 0 -> exists a, age = FInt a /\ 20 <= a <= 59)) /\
    length (filter (fun row => has_empty_field row = true) data_rows)
    = Z.to_nat (num_rows / 10).
Proof.
  intros Hn Hopen. exists (sample_rows writer num_rows).
  split; [unfold generate_sample_data; by rewrite Hopen|].
  assert (exists n, num_rows = Z.of_nat n) as [n ->]
    by (exists (Z.to_nat num_rows); lia).
  rewrite Nat2Z.id.
  split; [apply length_sample_rows|]. split; [|apply sample_rows_empty_count].
  intros k row Hrow i.
  assert (k < n)%nat as Hk.
  { apply lookup_lt_Some in Hrow. by rewrite length_sample_rows in Hrow. }
  rewrite lookup_sample_rows in Hrow by done. injection Hrow as <-.
  fold i. rewrite has_empty_field_sample_row. unfold sample_row.
  case_bool_decide as Hi.
  - eexists. split; [done|]. split; [done|]. split; [done|]. done.
  - eexists. split; [done|]. split; [done|]. split; [done|].
    intros _. eexists. split; [done|]. pose proof (Z.mod_pos_bound i 40). lia.
Qed.

Lemma length_filter_map_bool {A} (f : A -> bool) (l : list A) :
  length (filter (fun b : bool => b = true) (map f l))
  = length (filter (fun x => f x = true) l).
Proof. by rewrite filter_map, length_map. Qed.

(** The rows kept by step 1 of a frame that reads rows of fields are as
    many as the rows without an empty field. *)
Lemma kept_rows_of_fields (data_rows : list (list (field number))) df :
  reads_as data_rows df ->
  nrows df = length data_rows /\
  length (notna_positions df)
  = length (filter (fun row => has_empty_field row = false) data_rows).
Proof.
  unfold reads_as. intros Hread. split.
  - apply (f_equal length) in Hread. by rewrite !length_map, length_seq in Hread.
  - unfold notna_positions.
    rewrite <- (length_filter_map_bool (row_complete df)), Hread.
    rewrite length_filter_map_bool. f_equal. apply list_filter_iff.
    intros row. by destruct (has_empty_field row).
Qed.

(** X16. A frame read from the sample rows goes through [transform] with one
    row in ten dropped. *)
Theorem transform_of_sample_rows self data s df (num_rows : Z) :
  0 <= num_rows ->
  heap s !! data = Some df ->
  unique_labels df ->
  reads_as (sample_rows writer num_rows) df ->
  rows_filtered (metrics s) = 0 ->
  exists out s',
    transform env self data s = (inr out, s') /\
    rows_processed (metrics s') = num_rows - num_rows / 10 /\
    rows_filtered (metrics s') = num_rows / 10.
Proof.
  intros Hn H Hnd Hread Hzero.
  assert (exists n, num_rows = Z.of_nat n) as [n ->]
    by (exists (Z.to_nat num_rows); lia).
  destruct (transform_returns env self data s df H Hnd) as (out & Hout & Hrun).
  eexists _, _. split; [exact Hrun|]. simpl.
  apply nrows_transform_frame in Hout.
  destruct (kept_rows_of_fields _ _ Hread) as [Hrows Hkept].
  pose proof (length_filter_split has_empty_field
                (sample_rows writer (Z.of_nat n))) as Hsplit.
  pose proof (sample_rows_empty_count n) as Hcount.
  rewrite length_sample_rows in Hrows, Hsplit.
  unfold len. rewrite Hout, Hzero. unfold dropna; simpl.
  pose proof (Z.div_pos (Z.of_nat n) 10). lia.
Qed.

End SampleData.

Section Script.

Context {number : Type} (env : @Env number) (writer : Writer number).

Implicit Types (df : DataFrame number) (s : @State number).


Lemma run_loads_returns_metrics self t s m s' :
  run_loads env self t s = (inr m, s') -> m = metrics s'.
Proof.
  unfold run_loads, mbind, M_bind. intros H.
  repeat match type of H with
         | (let (_, _) := ?c in _) = _ => destruct c as [[?|?] ?]; simplify_eq
         | match ?c with _ => _ end = _ => destruct c as [[?|?] ?]; simplify_eq
         end.
  unfold get_metrics in H. by simplify_eq.
Qed.

(** The row counts that [run] returns are those that [transform] wrote:
    no later stage and no failure of a later stage changes them. *)
Lemma run_counts_after_transform self s text df :
  files s !! source_path self = Some text ->
  read_csv env text = inr df ->
  unique_labels df ->
  exists m s',
    run env self s = (inr m, s') /\
    rows_processed m = len (dropna df) /\
    rows_filtered m = rows_filtered (metrics s) + (len df - len (dropna df)) /\
    rows_with_errors m = rows_with_errors (metrics s).
Proof.
  intros Hf Hr Hnd. rewrite run_unfold, run_stages_unfold.
  destruct (run_stages_transformed env self (started env s) text df)
    as (out & Hout & Hrun); [done..|].
  apply nrows_transform_frame in Hout.
  unfold mbind, M_bind in Hrun. unfold mbind, M_bind.
  destruct (extract env self (started env s)) as [[e|d] s1]; [done|].
  destruct (transform env self d s1) as [[e|t] s2]; [done|].
  simplify_eq.
  match goal with |- context [run_loads env self ?t ?s2] =>
    destruct (run_loads env self t s2) as [[e|m] s3] eqn:Hl
  end.
  - pose proof (keeps_run_loads env counts self _ (fun _ _ => eq_refl)
                  (fun _ _ => eq_refl) _ _ _ Hl) as Hc.
    pose proof (keeps_run_loads env report self _ (fun _ _ => eq_refl)
                  (fun _ _ => eq_refl) _ _ _ Hl) as Hrep.
    unfold counts, report in Hc, Hrep. simpl in Hc, Hrep. simplify_eq.
    eexists _, _. split; [done|]. simpl. unfold len in *. rewrite Hout in *.
    split_and!; congruence.
  - pose proof (keeps_run_loads env counts self _ (fun _ _ => eq_refl)
                  (fun _ _ => eq_refl) _ _ _ Hl) as Hc.
    pose proof (keeps_run_loads env report self _ (fun _ _ => eq_refl)
                  (fun _ _ => eq_refl) _ _ _ Hl) as Hrep.
    apply run_loads_returns_metrics in Hl.
    unfold counts, report in Hc, Hrep. simpl in Hc, Hrep. simplify_eq.
    eexists _, _. split; [done|]. unfold len in *. rewrite Hout in *.
    split_and!; congruence.
Qed.


(** X18. The script on a sample file that reads as a frame with a missing
    value in the rows with an empty field: of the hundred rows ninety are
    processed and ten filtered, whatever the metrics held before and
    whether or not the two loads succeed. *)
Theorem main_processes_ninety_rows s df :
  open_error env "sample_data.csv" = None ->
  read_csv env (csv_text writer (header :: sample_rows writer 100)) = inr df ->
  unique_labels df ->
  reads_as (sample_rows writer 100) df ->
  exists m s',
    main env writer s = (inr m, s') /\
    rows_processed m = 90 /\ rows_filtered m = 10 /\ rows_with_errors m = 0.
Proof.
  intros Hopen Hr Hnd Hread.
  unfold main, generate_sample_data, mbind, M_bind. rewrite Hopen.
  unfold __init__, modify_metrics, mbind, M_bind, mret, M_ret. simpl.
  match goal with |- context [run env ?p ?st] =>
    destruct (run_counts_after_transform p st
                (csv_text writer (header :: sample_rows writer 100)) df)
      as (m & s' & Hrun & Hp & Hfl & He); [|exact Hr|exact Hnd|]
  end.
  { simpl. apply lookup_insert_eq. }
  exists m, s'. split; [exact Hrun|]. simpl in Hfl, He.
  destruct (kept_rows_of_fields _ _ Hread) as [Hrows Hkept].
  pose proof (length_filter_split has_empty_field (sample_rows writer 100))
    as Hsplit.
  pose proof (sample_rows_empty_count writer 100) as Hcount.
  pose proof (length_sample_rows writer 100) as Hlen.
  change (Z.of_nat 100) with 100 in Hcount, Hlen.
  change (Z.to_nat (100 / 10)) with 10%nat in Hcount.
  unfold len in *. unfold dropna in Hp, Hfl; simpl in Hp, Hfl.
  split_and!; [lia|lia|done].
Qed.

End Script.

(** ** The shape of what [transform] returns *)

Section Shape.

Context {number : Type} (env : @Env number).

Implicit Types (df : DataFrame number) (s : @State number).

Lemma rows_complete_dropna df :
  Forall (fun row => has_null row = false) (rows (dropna df)).
Proof.
  rewrite rows_dropna. apply Forall_forall. intros row Hrow.
  by apply list_elem_of_filter in Hrow as [Hrow _].
Qed.

Lemma dropna_idempotent df : dropna (dropna df) = dropna df.
Proof.
  apply dropna_without_null; [apply rectangular_dropna|apply rows_complete_dropna].
Qed.

(** X19. Step 1 on the frame that step 1 made drops nothing: the new frame is
    equal to the cleaned one and [rows_filtered] stays. *)
Theorem data_cleaning_of_cleaned_frame data s df :
  heap s !! data = Some df ->
  exists out1 s1 out2 s2 cleaned,
    data_cleaning data s = (inr out1, s1) /\
    data_cleaning out1 s1 = (inr out2, s2) /\
    heap s2 !! out1 = Some cleaned /\
    heap s2 !! out2 = Some cleaned /\
    out1 <> out2 /\
    rows_filtered (metrics s2) = rows_filtered (metrics s1).
Proof.
  intros H. eexists _, _, _, _, (dropna df).
  split; [by apply data_cleaning_run|].
  split; [apply data_cleaning_run; simpl; apply lookup_alloc|]. simpl.
  rewrite dropna_idempotent, length_app. simpl.
  split_and!.
  - rewrite lookup_app_l by (rewrite length_app; simpl; lia). apply lookup_alloc.
  - replace (length (heap s) + 1)%nat with (length (heap s ++ [dropna df]))
      by (rewrite length_app; simpl; lia).
    apply lookup_alloc.
  - lia.
  - lia.
Qed.

Lemma rectangular_combine_frame df df' :
  unique_labels df -> rectangular df ->
  combine_frame env df = inr df' -> rectangular df'.
Proof.
  intros Hnd Hrect Hc. unfold combine_frame in Hc.
  destruct (take 2 _) as [|c1 [|c2 l]]; simplify_eq; try done.
  destruct (getitem df c1) as [|a] eqn:Ha; [done|].
  destruct (getitem df c2) as [|b] eqn:Hb; [done|].
  simplify_eq. apply rectangular_setitem; [done|].
  apply getitem_elem_of in Ha, Hb.
  unfold rectangular in Hrect. rewrite Forall_forall in Hrect.
  pose proof (Hrect _ Ha) as Hla. pose proof (Hrect _ Hb) as Hlb.
  simpl in *. unfold astype_str.
  rewrite length_zip_with, !length_map. lia.
Qed.

(** X20. The frame that [transform] returns is a table: its labels are
    unique and every column has as many cells as the frame has rows. *)
Theorem transform_returns_a_table self data s df :
  heap s !! data = Some df ->
  unique_labels df ->
  exists out s' df',
    transform env self data s = (inr out, s') /\
    heap s' !! out = Some df' /\
    unique_labels df' /\
    rectangular df' /\
    length (rows df') = nrows df'.
Proof.
  intros H Hnd.
  destruct (transform_returns env self data s df H Hnd) as (out & Hout & Hrun).
  eexists _, _, out. split; [exact Hrun|]. simpl.
  split; [apply lookup_alloc|].
  split; [by eapply unique_labels_transform_frame|].
  split; [|apply length_rows].
  unfold transform_frame in Hout.
  eapply rectangular_combine_frame; [| |exact Hout].
  - by apply unique_labels_enriched_frame.
  - by apply rectangular_enriched_frame.
Qed.

(** X21. The target file cannot be opened: the run reports the failure, no
    file and no table is written, and the row counts of the
    transformation are in the metrics all the same. *)
Theorem run_csv_failure_writes_nothing self s text df e :
  files s !! source_path self = Some text ->
  read_csv env text = inr df ->
  unique_labels df ->
  open_error env (target_path self) = Some e ->
  exists m s',
    run env self s = (inr m, s') /\
    status m = Some "failed" /\
    error m = Some (exc_msg e) /\
    rows_processed m = len (dropna df) /\
    rows_filtered m = rows_filtered (metrics s) + (len df - len (dropna df)) /\
    files s' = files s /\
    db s' = db s.
Proof.
  intros Hf Hr Hnd Hopen. rewrite run_unfold.
  destruct (run_stages_transformed env self (started env s) text df)
    as (out & Hout & Hrun); [done..|].
  apply nrows_transform_frame in Hout.
  unfold mbind, M_bind in Hrun.
  unfold run_stages, mbind, M_bind.
  destruct (extract env self (started env s)) as [[e1|d] s1]; [done|].
  destruct (transform env self d s1) as [[e1|t] s2]; [done|].
  simplify_eq.
  unfold load_to_csv, try_except, mbind, M_bind, deref; simpl.
  rewrite lookup_alloc_2, Hopen. simpl.
  eexists _, _. split; [done|]. simpl. unfold len. rewrite Hout.
  split_and!; done.
Qed.

End Shape.

(** ** The properties above on the sample data *)

Lemma extract_only_adds_the_frame_read_witness :
  let s := initial_state sample_files ∅ in
  let s' := mkState [people] new_metrics sample_files ∅ 0 in
  metrics s' = metrics s /\ files s' = files s /\ db s' = db s /\
  ticks s' = ticks s /\
  0%nat = length (heap s) /\
  exists text df,
    files s !! source_path sample_pipeline = Some text /\
    read_csv sample_env text = inr df /\
    heap s' = heap s ++ [df].
Proof.
  exact (extract_only_adds_the_frame_read sample_env sample_pipeline
           (initial_state sample_files ∅) (inr 0%nat)
           (mkState [people] new_metrics sample_files ∅ 0) eq_refl).
Defined.

Lemma load_to_csv_replaces_target_only_witness :
  exists s',
    load_to_csv sample_env sample_pipeline 0%nat (state_with people) = (inr tt, s') /\
    files s' !! "out.csv" = Some "3".
Proof.
  destruct (load_to_csv_replaces_target_only sample_env sample_pipeline 0%nat
              (state_with people) people eq_refl eq_refl)
    as (s' & Hrun & Hfile & _).
  by exists s'.
Defined.

Lemma load_to_csv_twice_is_last_witness :
  let s := mkState [people; ids] new_metrics ∅ ∅ 0 in
  (load_to_csv sample_env sample_pipeline 0%nat ;;
   load_to_csv sample_env sample_pipeline 1%nat) s
  = load_to_csv sample_env sample_pipeline 1%nat s.
Proof.
  exact (load_to_csv_twice_is_last sample_env sample_pipeline 0%nat 1%nat
           (mkState [people; ids] new_metrics ∅ ∅ 0) people ids
           eq_refl eq_refl eq_refl).
Defined.

Lemma load_to_db_replaces_table_only_witness :
  exists e s' tables,
    load_to_db sample_env sample_pipeline 0%nat "my table" (state_with people)
    = (inl e, s') /\
    exc_class e = "OperationalError" /\
    db s' !! "etl_output.db" = Some tables /\
    tables !! "my table" = Some people.
Proof.
  destruct (load_to_db_replaces_table_only sample_env sample_pipeline 0%nat
              "my table" (state_with people) people eq_refl eq_refl eq_refl)
    as (res & s' & tables & Hrun & Hdb & Htable & _ & _ & _ & _ & _ & _ & _
        & Hfail & _).
  rewrite (Hfail _ eq_refl eq_refl) in Hrun.
  eexists _, s', tables. split; [exact Hrun|]. by split.
Defined.

Lemma load_to_db_twice_is_last_witness :
  let s := mkState [people; ids] new_metrics ∅ ∅ 0 in
  (load_to_db sample_env sample_pipeline 0%nat "processed_data" ;;
   load_to_db sample_env sample_pipeline 1%nat "processed_data") s
  = load_to_db sample_env sample_pipeline 1%nat "processed_data" s.
Proof.
  exact (load_to_db_twice_is_last sample_env sample_pipeline 0%nat 1%nat
           "processed_data" (mkState [people; ids] new_metrics ∅ ∅ 0) people ids
           eq_refl eq_refl eq_refl eq_refl eq_refl eq_refl).
Defined.

Lemma transform_without_null_keeps_all_rows_witness :
  exists out s' df',
    transform sample_env sample_pipeline 0%nat (state_with ids) = (inr out, s') /\
    heap s' !! out = Some df' /\
    nrows df' = 1%nat /\
    rows_filtered (metrics s') = 0 /\
    rows_processed (metrics s') = 1.
Proof.
  apply (transform_without_null_keeps_all_rows sample_env sample_pipeline 0%nat
           (state_with ids) ids).
  - reflexivity.
  - by_computation.
  - by_computation.
  - by_computation.
Defined.

Lemma transform_twice_accumulates_filtered_witness :
  exists out1 s1 out2 s2,
    transform sample_env sample_pipeline 0%nat (state_with people) = (inr out1, s1) /\
    transform sample_env sample_pipeline 0%nat s1 = (inr out2, s2) /\
    out1 <> out2 /\
    rows_processed (metrics s2) = 2 /\
    rows_filtered (metrics s2) = 2.
Proof.
  apply (transform_twice_accumulates_filtered sample_env sample_pipeline 0%nat
           (state_with people) people).
  - reflexivity.
  - by_computation.
Defined.

Lemma transform_touches_counts_only_witness :
  ticks (transform sample_env sample_pipeline 0%nat (state_with people)).2 = 1%nat.
Proof.
  refine (proj1 (proj2 (proj2 (transform_touches_counts_only sample_env
                   sample_pipeline 0%nat (state_with people) people _)))).
  reflexivity.
Defined.

Lemma data_validation_idempotent_witness :
  (data_validation sample_env 0%nat ;; data_validation sample_env 0%nat)
    (state_with (dropna people))
  = data_validation sample_env 0%nat (state_with (dropna people)).
Proof.
  apply (data_validation_idempotent sample_env 0%nat
           (state_with (dropna people)) (dropna people)).
  - reflexivity.
  - by_computation.
Defined.

Lemma run_success_witness :
  exists m s',
    run sample_env sample_pipeline (initial_state sample_files ∅) = (inr m, s') /\
    start_time m = Some "0" /\ end_time m = Some "2" /\
    execution_time_seconds m = Some (total_seconds 0 2) /\
    status m = None /\ error m = None /\
    ticks s' = 3%nat.
Proof.
  destruct (run_success sample_env sample_pipeline (initial_state sample_files ∅)
              "id,name,age" people)
    as (m & s' & out & Hrun & _ & _ & Hst & Hend & Hexec & Hstatus & Herr & _
        & _ & _ & _ & Hticks).
  - reflexivity.
  - reflexivity.
  - by_computation.
  - reflexivity.
  - reflexivity.
  - intros out. reflexivity.
  - reflexivity.
  - reflexivity.
  - exists m, s'. split_and!; done.
Defined.

Lemma run_store_failure_leaves_csv_witness :
  exists m s',
    run no_store_env sample_pipeline (initial_state sample_files ∅) = (inr m, s') /\
    status m = Some "failed" /\
    error m = Some "unable to open database file" /\
    is_Some (files s' !! "out.csv") /\
    db s' = ∅.
Proof.
  destruct (run_store_failure_leaves_csv no_store_env sample_pipeline
              (initial_state sample_files ∅) "id,name,age" people OperationalError)
    as (m & s' & out & Hrun & _ & Hstatus & Herr & _ & Hfiles & Hdb).
  - reflexivity.
  - reflexivity.
  - by_computation.
  - reflexivity.
  - reflexivity.
  - exists m, s'. split_and!; try done.
    rewrite Hfiles. simpl. rewrite lookup_insert_eq. by eexists.
Defined.

Lemma run_never_clears_status_witness :
  let m0 := set_error "earlier failure" (set_status "failed" new_metrics) in
  let s := mkState [] m0 sample_files ∅ 0 in
  status (metrics (run sample_env sample_pipeline s).2) = Some "failed".
Proof.
  intros m0 s.
  destruct (run sample_env sample_pipeline s) as [[e|m] s'] eqn:Hrun.
  - vm_compute in Hrun. discriminate.
  - destruct (run_never_clears_status sample_env sample_pipeline s m s' Hrun)
      as (_ & _ & Hsticky).
    vm_compute in Hrun. injection Hrun as <- <-. reflexivity.
Defined.

Lemma transform_of_own_output_adds_no_column_witness :
  exists out1 s1 df1 out2 s2 df2,
    transform sample_env sample_pipeline 0%nat (state_with people) = (inr out1, s1) /\
    heap s1 !! out1 = Some df1 /\
    transform sample_env sample_pipeline out1 s1 = (inr out2, s2) /\
    heap s2 !! out2 = Some df2 /\
    heap s2 !! out1 = Some df1 /\
    labels df2 = labels df1.
Proof.
  apply (transform_of_own_output_adds_no_column sample_env sample_pipeline
           sample_pipeline 0%nat (state_with people) people).
  - reflexivity.
  - by_computation.
Defined.

Lemma source_file_is_last_component_witness :
  exists out s' df',
    transform sample_env sample_pipeline 0%nat (state_with people) = (inr out, s') /\
    heap s' !! out = Some df' /\
    getitem df' "source_file"
    = inr (mkSeries object (replicate (nrows df') (Str "people.csv"))).
Proof.
  apply (source_file_is_last_component sample_env sample_pipeline 0%nat
           (state_with people) people "data" "people.csv").
  - reflexivity.
  - by_computation.
  - reflexivity.
  - right. reflexivity.
Defined.

Lemma generate_sample_data_every_tenth_incomplete_witness :
  exists data_rows,
    generate_sample_data sample_env sample_writer "sample_data.csv" 100
      (initial_state ∅ ∅)
    = (inr tt,
       set_files {[ "sample_data.csv" := csv_text sample_writer (header :: data_rows) ]}
         (initial_state ∅ ∅)) /\
    length data_rows = 100%nat /\
    length (filter (fun row => has_empty_field row = true) data_rows) = 10%nat.
Proof.
  destruct (generate_sample_data_every_tenth_incomplete sample_env sample_writer
              "sample_data.csv" 100 (initial_state ∅ ∅))
    as (data_rows & Hrun & Hlen & _ & Hcount).
  - lia.
  - reflexivity.
  - exists data_rows. split; [exact Hrun|]. split; [exact Hlen|exact Hcount].
Defined.

Lemma transform_of_sample_rows_witness :
  exists out s',
    transform sample_env sample_pipeline 0%nat (state_with (script_frame 20))
    = (inr out, s') /\
    rows_processed (metrics s') = 18 /\
    rows_filtered (metrics s') = 2.
Proof.
  destruct (transform_of_sample_rows sample_env sample_writer sample_pipeline
              0%nat (state_with (script_frame 20)) (script_frame 20) 20)
    as (out & s' & Hrun & Hp & Hf).
  - lia.
  - reflexivity.
  - by_computation.
  - vm_compute. reflexivity.
  - reflexivity.
  - by exists out, s'.
Defined.

Lemma main_processes_ninety_rows_witness :
  exists m s',
    main script_env sample_writer (initial_state ∅ ∅) = (inr m, s') /\
    rows_processed m = 90 /\ rows_filtered m = 10 /\ rows_with_errors m = 0.
Proof.
  apply (main_processes_ninety_rows script_env sample_writer
           (initial_state ∅ ∅) (script_frame 100)).
  - reflexivity.
  - reflexivity.
  - by_computation.
  - vm_compute. reflexivity.
Defined.


Lemma data_cleaning_of_cleaned_frame_witness :
  exists out1 s1 out2 s2 cleaned,
    data_cleaning 0%nat (state_with people) = (inr out1, s1) /\
    data_cleaning out1 s1 = (inr out2, s2) /\
    heap s2 !! out1 = Some cleaned /\
    heap s2 !! out2 = Some cleaned /\
    out1 <> out2 /\
    rows_filtered (metrics s2) = rows_filtered (metrics s1).
Proof.
  apply (data_cleaning_of_cleaned_frame 0%nat (state_with people) people).
  reflexivity.
Defined.

Lemma transform_returns_a_table_witness :
  exists out s' df',
    transform sample_env sample_pipeline 0%nat (state_with people) = (inr out, s') /\
    heap s' !! out = Some df' /\
    unique_labels df' /\
    rectangular df' /\
    length (rows df') = nrows df'.
Proof.
  apply (transform_returns_a_table sample_env sample_pipeline 0%nat
           (state_with people) people).
  - reflexivity.
  - by_computation.
Defined.

Lemma run_csv_failure_writes_nothing_witness :
  exists m s',
    run read_only_env sample_pipeline (initial_state sample_files ∅) = (inr m, s') /\
    status m = Some "failed" /\
    error m = Some "[Errno 13] Permission denied" /\
    rows_processed m = 2 /\
    rows_filtered m = 1 /\
    files s' = sample_files /\
    db s' = ∅.
Proof.
  apply (run_csv_failure_writes_nothing read_only_env sample_pipeline
           (initial_state sample_files ∅) "id,name,age" people PermissionError).
  - reflexivity.
  - reflexivity.
  - by_computation.
  - reflexivity.
Defined.

(** ** The round trip through a CSV file *)

Example frame_csv_visits :
  frame_csv pretty visits
  = Some ("name,city,count" +:+ String line_feed
            ("ann,rome,3" +:+ String line_feed
               (",oslo,12" +:+ String line_feed ""))).
Proof. vm_compute. reflexivity. Qed.

Section Texts.

Implicit Types (s t f : string) (c sep : ascii) (p q : ascii -> bool).















End Texts.


Section RoundTrip.

Context {number : Type}.
Variable number_str : number -> string.
Variable read_number : string -> option number.

Implicit Types (df : DataFrame number) (col : Series number)
  (v : scalar number) (vs : list (scalar number)).

(** *** The writer *)



(** *** The reader *)












End RoundTrip.

Section LoadThenExtract.

Context {number : Type} (env : @Env number).
Variable read_number : string -> option number.

Implicit Types (df : DataFrame number) (s : @State number).


End LoadThenExtract.





